(** * DrawSketchController

    A shallow embedding of [src/Mod/Sketcher/Gui/DrawSketchController.h]:
    the generic controller that sits between a sketcher drawing tool (the
    handler) and the numeric labels shown in the 3D view (the on-view
    parameters).

    The controller is a class template; its template parameters and the
    classes it only uses ([HandlerT], [Gui::EditableDatumLabel]) are taken
    here as interfaces, and the member functions are written in a small
    state monad over the controller and the handler it points to.  Every
    call that leaves the controller (a handler member function or a
    specialisation point) is recorded in a trace, so that the order of the
    calls can be stated. *)

From Stdlib Require Import ZArith List Bool Lia PrimFloat.
From stdpp Require Import base decidable option list.

Open Scope Z_scope.

(** ** Machine integers

    [int] and [unsigned int] are 32 bits wide; an index travels between the
    two (and [size_t]) at several places of the source, so the conversions
    are written out. *)

Definition INT_MAX : Z := 2 ^ 31 - 1.

(** Conversion to [unsigned int]. *)
Definition to_unsigned (z : Z) : Z := z mod 2 ^ 32.

(** Conversion to [int] (two's complement). *)
Definition to_int (z : Z) : Z := (z + 2 ^ 31) mod 2 ^ 32 - 2 ^ 31.

(** ** Geometry and colours

    [double] is a binary64 float; the controller stores and forwards
    positions and never computes with them. *)

Record Vector2d := mkVector2d { v2x : float; v2y : float }.
Record Vector3d := mkVector3d { v3x : float; v3y : float; v3z : float }.
Record SbColor := mkSbColor { red : float; green : float; blue : float }.

(** [Base::Vector2d()] and [Base::Vector3d()]. *)
Definition Vector2d_zero : Vector2d := mkVector2d 0 0.
Definition Vector3d_zero : Vector3d := mkVector3d 0 0 0.

(** [ColorManager]: the two colours are read from the user preferences when
    the controller is built, and are taken here as given. *)
Record ColorManager := mkColorManager {
  dimConstrColor : SbColor;
  dimConstrDeactivatedColor : SbColor
}.

(** ** ControlAmount: the number of controls of each construction method *)

Module ControlAmount.

(** [template<int... sizes>]: [constructionMethodParameters]. *)
Definition t := list Z.

(** [size(constructionmethod)], on the [int] value of the enumerator.  The
    array is read without a check in the source; reading outside it is
    undefined there and [None] here. *)
Definition size (sizes : t) (modeint : Z) : option Z :=
  if modeint <? 0 then None else sizes !! Z.to_nat modeint.

Definition defaultMethodSize (sizes : t) : option Z := size sizes 0.

End ControlAmount.

(** ** Interfaces of the collaborators *)

(** [SelectModeT]: the enumeration of the states of the tool's state
    machine; it has an enumerator [End] and is compared with [==] and [<]. *)
Class SelectModeEnum (SelectModeT : Type) := {
  End : SelectModeT;
  SelectModeT_eq_dec :: EqDecision SelectModeT;
  (** [<] on the enumerators. *)
  SelectModeT_ltb : SelectModeT -> SelectModeT -> bool
}.

(** [ConstructionMethodT]: an enumeration, read through
    [static_cast<int>]. *)
Class ConstructionMethodEnum (ConstructionMethodT : Type) := {
  static_cast_int : ConstructionMethodT -> Z
}.

(** [Gui::EditableDatumLabel], as the controller uses it: the constructor,
    the public member [isSet], and the member functions called on a label.
    A member function acts on its own label. *)
Class EditableDatumLabel (Viewer Placement Label : Type) := {
  newLabel : Viewer -> Placement -> SbColor -> bool -> Label;
  isSet : Label -> bool;
  set_isSet : bool -> Label -> Label;
  setColor : SbColor -> Label -> Label;
  stopEdit : Label -> Label;
  deactivate : Label -> Label;
  activate : Label -> Label;
  setPoints : Vector3d -> Vector3d -> Label -> Label;
  (** [startEdit(val, keymanager.get())]: the keyboard manager is the one
      object the controller owns, and is left implicit. *)
  startEdit : float -> Label -> Label;
  setFocusToSpinbox : Label -> Label
}.

(** ** The controller's data members *)

Record DrawSketchController (Label : Type) := mkController {
  init : bool;
  firstMoveInit : bool;
  prevCursorPosition : Vector2d;
  lastControlEnforcedPosition : Vector2d;
  onViewIndexWithFocus : Z;
  nOnViewParameter : Z;
  onViewParameters : list Label;
  colorManager : ColorManager
}.

Arguments mkController {Label}.
Arguments init {Label}.
Arguments firstMoveInit {Label}.
Arguments prevCursorPosition {Label}.
Arguments lastControlEnforcedPosition {Label}.
Arguments onViewIndexWithFocus {Label}.
Arguments nOnViewParameter {Label}.
Arguments onViewParameters {Label}.
Arguments colorManager {Label}.

(** The controller together with the handler its [handler] member points
    to: what a call between the two can read and write. *)
Record World (HandlerT Label : Type) := mkWorld {
  ctrl : DrawSketchController Label;
  handler : HandlerT
}.

Arguments mkWorld {HandlerT Label}.
Arguments ctrl {HandlerT Label}.
Arguments handler {HandlerT Label}.

(** [HandlerT], as the controller uses it.  The [const] queries read the
    handler; the other member functions run handler code, which calls back
    into the controller, so they act on the whole [World]. *)
Class ControllableHandler
    (SelectModeT ConstructionMethodT Viewer Placement HandlerT Label : Type) := {
  state : HandlerT -> SelectModeT;
  isState : HandlerT -> SelectModeT -> bool;
  isLastState : HandlerT -> bool;
  getFirstState : HandlerT -> SelectModeT;
  constructionMethod : HandlerT -> ConstructionMethodT;
  continuousMode : HandlerT -> bool;
  getViewer : HandlerT -> Viewer;
  (** [handler->sketchgui->getSketchObject()->Placement.getValue()] *)
  getPlacement : HandlerT -> Placement;
  mouseMove : Vector2d -> World HandlerT Label -> World HandlerT Label;
  preselectAtPoint : Vector2d -> World HandlerT Label -> World HandlerT Label;
  updateCursor : World HandlerT Label -> World HandlerT Label;
  reset : World HandlerT Label -> World HandlerT Label;
  handler_resetControls : World HandlerT Label -> World HandlerT Label
}.

(** The specialisation interface: the member functions whose body is empty
    in this class and that a tool specialises or overrides, and [getState].
    A specialisation has access to the controller's members and to the
    handler. *)
Record Specialisation (SelectModeT QWidget HandlerT Label : Type) := mkSpecialisation {
  doInitControls : QWidget -> World HandlerT Label -> World HandlerT Label;
  doConstructionMethodChanged : World HandlerT Label -> World HandlerT Label;
  adaptDrawingToOnViewParameterChange :
    Z -> float -> World HandlerT Label -> World HandlerT Label;
  doEnforceControlParameters :
    Vector2d -> World HandlerT Label -> Vector2d * World HandlerT Label;
  doChangeDrawSketchHandlerMode : World HandlerT Label -> World HandlerT Label;
  configureOnViewParameters : World HandlerT Label -> World HandlerT Label;
  adaptParameters_at : Vector2d -> World HandlerT Label -> World HandlerT Label;
  (** [getState(parameterindex)] reads the handler only. *)
  getState : HandlerT -> Z -> SelectModeT
}.

Arguments mkSpecialisation {SelectModeT QWidget HandlerT Label}.
Arguments doInitControls {SelectModeT QWidget HandlerT Label}.
Arguments doConstructionMethodChanged {SelectModeT QWidget HandlerT Label}.
Arguments adaptDrawingToOnViewParameterChange {SelectModeT QWidget HandlerT Label}.
Arguments doEnforceControlParameters {SelectModeT QWidget HandlerT Label}.
Arguments doChangeDrawSketchHandlerMode {SelectModeT QWidget HandlerT Label}.
Arguments configureOnViewParameters {SelectModeT QWidget HandlerT Label}.
Arguments adaptParameters_at {SelectModeT QWidget HandlerT Label}.
Arguments getState {SelectModeT QWidget HandlerT Label}.

(** ** Calls that leave the controller *)

Inductive Call :=
| HandlerMouseMove (p : Vector2d)
| HandlerPreselectAtPoint (p : Vector2d)
| HandlerUpdateCursor
| HandlerReset
| HandlerResetControls
| DoInitControls
| DoConstructionMethodChanged
| AdaptDrawingToOnViewParameterChange (onviewparameterindex : Z) (value : float)
| DoEnforceControlParameters (onSketchPos : Vector2d)
| DoChangeDrawSketchHandlerMode
| ConfigureOnViewParameters
| AdaptParameters (onSketchPos : Vector2d)
| AssignMode (modevalue : Z).

Definition is_mouseMove (c : Call) : bool :=
  match c with HandlerMouseMove _ => true | _ => false end.

(** The number of calls of the handler's [mouseMove] in a trace. *)
Definition count_mouseMove (t : list Call) : nat :=
  length (List.filter is_mouseMove t).

(** ** The monad of the member functions

    A member function takes the world to a result, the new world and the
    calls it made, in order. *)

Definition M (W A : Type) : Type := W -> A * W * list Call.

Definition M_ret {W A} (a : A) : M W A := fun w => (a, w, []).

Definition M_bind {W A B} (f : A -> M W B) (m : M W A) : M W B :=
  fun w =>
    let '(a, w1, t1) := m w in
    let '(b, w2, t2) := f a w1 in
    (b, w2, t1 ++ t2).

#[export] Instance M_mret {W} : MRet (M W) := @M_ret W.
#[export] Instance M_mbind {W} : MBind (M W) := @M_bind W.

Definition get {W} : M W W := fun w => (w, w, []).
Definition modify {W} (f : W -> W) : M W unit := fun w => (tt, f w, []).

(** A call to the outside: logged, then run. *)
Definition call {W} (c : Call) (f : W -> W) : M W unit := fun w => (tt, f w, [c]).

(** The world and the trace a member function ends with. *)
Definition exec {W A} (m : M W A) (w : W) : W := snd (fst (m w)).
Definition trace {W A} (m : M W A) (w : W) : list Call := snd (m w).
Definition result {W A} (m : M W A) (w : W) : A := fst (fst (m w)).

(** [for (i = from; ...; i++)] run [n] times, threading the local variables
    [a] of the enclosing function through the body. *)
Fixpoint for_loop {W A} (n : nat) (i : Z) (body : Z -> A -> M W A) (a : A) : M W A :=
  match n with
  | O => mret a
  | S n' => a' ← body i a; for_loop n' (i + 1) body a'
  end.

(** ** Assignments to the data members *)

Section Members.
Context {HandlerT Label : Type}.
Abbreviation Controller := (DrawSketchController Label).
Abbreviation W := (World HandlerT Label).

Definition set_init (b : bool) (c : Controller) : Controller :=
  mkController b (firstMoveInit c) (prevCursorPosition c)
    (lastControlEnforcedPosition c) (onViewIndexWithFocus c)
    (nOnViewParameter c) (onViewParameters c) (colorManager c).

Definition set_firstMoveInit (b : bool) (c : Controller) : Controller :=
  mkController (init c) b (prevCursorPosition c)
    (lastControlEnforcedPosition c) (onViewIndexWithFocus c)
    (nOnViewParameter c) (onViewParameters c) (colorManager c).

Definition set_prevCursorPosition (p : Vector2d) (c : Controller) : Controller :=
  mkController (init c) (firstMoveInit c) p
    (lastControlEnforcedPosition c) (onViewIndexWithFocus c)
    (nOnViewParameter c) (onViewParameters c) (colorManager c).

Definition set_lastControlEnforcedPosition (p : Vector2d) (c : Controller) : Controller :=
  mkController (init c) (firstMoveInit c) (prevCursorPosition c)
    p (onViewIndexWithFocus c)
    (nOnViewParameter c) (onViewParameters c) (colorManager c).

Definition set_onViewIndexWithFocus (i : Z) (c : Controller) : Controller :=
  mkController (init c) (firstMoveInit c) (prevCursorPosition c)
    (lastControlEnforcedPosition c) i
    (nOnViewParameter c) (onViewParameters c) (colorManager c).

Definition set_nOnViewParameter (n : Z) (c : Controller) : Controller :=
  mkController (init c) (firstMoveInit c) (prevCursorPosition c)
    (lastControlEnforcedPosition c) (onViewIndexWithFocus c)
    n (onViewParameters c) (colorManager c).

Definition set_onViewParameters (l : list Label) (c : Controller) : Controller :=
  mkController (init c) (firstMoveInit c) (prevCursorPosition c)
    (lastControlEnforcedPosition c) (onViewIndexWithFocus c)
    (nOnViewParameter c) l (colorManager c).

(** An update of the controller inside the world. *)
Definition on_ctrl (f : Controller -> Controller) (w : W) : W :=
  mkWorld (f (ctrl w)) (handler w).

(** [onViewParameters.size()] *)
Definition nslots (w : W) : Z := Z.of_nat (length (onViewParameters (ctrl w))).

(** [onViewParameters[i]->f()]: a member function run on the label at
    index [i].  The index is unsigned at every use; the vector is read
    unchecked in the source, and an index past its end changes nothing
    here. *)
Definition on_label (i : Z) (f : Label -> Label) (w : W) : W :=
  on_ctrl (fun c => set_onViewParameters (alter f (Z.to_nat i) (onViewParameters c)) c) w.

(** [onViewParameters[i]], for an index in range. *)
Definition label_at (i : Z) (w : W) : option Label :=
  onViewParameters (ctrl w) !! Z.to_nat i.

End Members.

(** ** The member functions *)

Section Controller.
Context {SelectModeT ConstructionMethodT Viewer Placement QWidget HandlerT Label : Type}.
Context `{!SelectModeEnum SelectModeT}
        `{!ConstructionMethodEnum ConstructionMethodT}
        `{!EditableDatumLabel Viewer Placement Label}
        `{!ControllableHandler SelectModeT ConstructionMethodT Viewer Placement
             HandlerT Label}.

(** [OnViewParametersT]: the sizes, one per construction method. *)
Variable OnViewParametersT : ControlAmount.t.

(** The specialisation in force. *)
Variable sp : Specialisation SelectModeT QWidget HandlerT Label.

Abbreviation Controller := (DrawSketchController Label).
Abbreviation W := (World HandlerT Label).

(** The data members as the constructor leaves them; [nOnViewParameter]
    starts as [OnViewParametersT::defaultMethodSize()]. *)
Definition newController (colors : ColorManager) : option Controller :=
  n ← ControlAmount.defaultMethodSize OnViewParametersT;
  Some (mkController false false Vector2d_zero Vector2d_zero 0 n [] colors).

(** *** Focus and activation of the on-view parameters *)

Definition isOnViewParameterOfCurrentMode (onviewparameterindex : Z) (w : W) : bool :=
  (onviewparameterindex <? nslots w)
  && bool_decide (getState sp (handler w) (to_int onviewparameterindex)
                  = state (handler w)).

Definition isOnViewParameterOfPreviousMode (onviewparameterindex : Z) (w : W) : bool :=
  (onviewparameterindex <? nslots w)
  && SelectModeT_ltb (getState sp (handler w) (to_int onviewparameterindex))
                     (state (handler w)).

Definition setFocusToOnViewParameter (onviewparameterindex : Z) : M W unit :=
  w ← get;
  if onviewparameterindex <? nslots w then
    modify (on_label onviewparameterindex setFocusToSpinbox);;
    modify (on_ctrl (set_onViewIndexWithFocus (to_int onviewparameterindex)))
  else mret tt.

(** The [while] loop of [passFocusToNextOnViewParameter]; [index] is an
    [unsigned int].  [fuel] bounds the number of iterations: the loop goes
    up by one to the number of labels, so that number is enough. *)
Fixpoint passFocus_while (fuel : nat) (index : Z) : M W unit :=
  w ← get;
  if index <? nslots w then
    match fuel with
    | O => mret tt
    | S fuel' =>
        if isOnViewParameterOfCurrentMode index w then
          setFocusToOnViewParameter index
        else passFocus_while fuel' (to_unsigned (index + 1))
    end
  else mret tt.

Definition passFocusToNextOnViewParameter : M W unit :=
  w ← get;
  let index := to_unsigned (to_int (onViewIndexWithFocus (ctrl w) + 1)) in
  let index := if nslots w <=? index then 0 else index in
  passFocus_while (length (onViewParameters (ctrl w))) index.

(** The body of the [for] loop of [setModeOnViewParameters]; [i] is a
    [size_t] and [firstOfMode] the local variable of the function. *)
Definition setMode_body (i : Z) (firstOfMode : bool) : M W bool :=
  w ← get;
  if negb (isOnViewParameterOfCurrentMode (to_unsigned i) w) then
    modify (on_label i stopEdit);;
    w ← get;
    (if negb (from_option isSet false (label_at i w))
        || bool_decide (state (handler w) = End)
     then modify (on_label i deactivate)
     else mret tt);;
    mret firstOfMode
  else
    firstOfMode' ←
      (if firstOfMode then
         modify (on_ctrl (set_onViewIndexWithFocus (to_int i)));;
         mret false
       else mret firstOfMode);
    modify (on_label i activate);;
    modify (on_label i (setPoints Vector3d_zero Vector3d_zero));;
    modify (on_label i (startEdit 0%float));;
    mret firstOfMode'.

(** The loop does not change the number of labels, so its bound is read
    once. *)
Definition setModeOnViewParameters : M W unit :=
  modify (on_ctrl (set_onViewIndexWithFocus (-1)));;
  w ← get;
  for_loop (length (onViewParameters (ctrl w))) 0 setMode_body true;;
  mret tt.

Definition unsetOnViewParameter (i : Z) : M W unit :=
  modify (on_label i (set_isSet false));;
  w ← get;
  modify (on_label i (setColor (dimConstrDeactivatedColor (colorManager (ctrl w))))).

(** *** The finish routine and the value-changed slot *)

Definition finishControlsChanged : M W unit :=
  w ← get;
  call (HandlerMouseMove (prevCursorPosition (ctrl w)))
       (mouseMove (prevCursorPosition (ctrl w)));;
  w ← get;
  let currentstate := state (handler w) in
  call (HandlerPreselectAtPoint (lastControlEnforcedPosition (ctrl w)))
       (preselectAtPoint (lastControlEnforcedPosition (ctrl w)));;
  call DoChangeDrawSketchHandlerMode (doChangeDrawSketchHandlerMode sp);;
  w ← get;
  if negb (isLastState (handler w))
     && negb (bool_decide (state (handler w) = currentstate))
     && firstMoveInit (ctrl w)
  then call (HandlerMouseMove (prevCursorPosition (ctrl w)))
            (mouseMove (prevCursorPosition (ctrl w)))
  else mret tt.

Definition onViewValueChanged (onviewparameterindex : Z) (value : float) : M W unit :=
  w ← get;
  (if isOnViewParameterOfCurrentMode (to_unsigned (to_int (onviewparameterindex + 1))) w
   then setFocusToOnViewParameter (to_unsigned (to_int (onviewparameterindex + 1)))
   else mret tt);;
  call (AdaptDrawingToOnViewParameterChange onviewparameterindex value)
       (adaptDrawingToOnViewParameterChange sp onviewparameterindex value);;
  finishControlsChanged.

(** *** Creation of the on-view parameters *)

(** The function object connected to [valueChanged] of the label created
    at index [i]. *)
Definition valueChanged_slot (i : Z) (value : float) : M W unit :=
  w ← get;
  modify (on_label i (setColor (dimConstrColor (colorManager (ctrl w)))));;
  onViewValueChanged i value.

(** [for (int i = 0; i < n; i++)] runs [n] times, and not at all for an [n]
    below one.  The connection of [valueChanged] is [valueChanged_slot]. *)
Definition initNOnViewParameters (n : Z) : M W unit :=
  w ← get;
  let viewer := getViewer (handler w) in
  let placement := getPlacement (handler w) in
  modify (on_ctrl (set_onViewParameters []));;
  for_loop (Z.to_nat n) 0
    (fun (i : Z) (_ : unit) =>
       w ← get;
       modify (on_ctrl (fun c =>
         set_onViewParameters
           (onViewParameters c
              ++ [newLabel viewer placement
                    (dimConstrDeactivatedColor (colorManager (ctrl w))) true]) c)))
    tt.

Definition resetOnViewParameters : M W unit :=
  w ← get;
  initNOnViewParameters (nOnViewParameter (ctrl w));;
  modify (on_ctrl (set_onViewIndexWithFocus 0));;
  call ConfigureOnViewParameters (configureOnViewParameters sp).

(** *** The functions offered to the handler *)

Definition doResetControls : M W unit := resetOnViewParameters.

Definition resetControls : M W unit :=
  doResetControls;;
  modify (on_ctrl (set_firstMoveInit false)).

Definition initControls (widget : QWidget) : M W unit :=
  call DoInitControls (doInitControls sp widget);;
  resetControls;;
  modify (on_ctrl (set_init true)).

Definition onMouseMoved (originalSketchPosition : Vector2d) : M W unit :=
  w ← get;
  if negb (firstMoveInit (ctrl w)) then setModeOnViewParameters else mret tt.

Definition mouseMoved (originalSketchPosition : Vector2d) : M W unit :=
  onMouseMoved originalSketchPosition;;
  w ← get;
  if negb (firstMoveInit (ctrl w)) then modify (on_ctrl (set_firstMoveInit true))
  else mret tt.

Definition afterEnforceControlParameters : M W unit :=
  w ← get;
  if 0 <=? onViewIndexWithFocus (ctrl w) then
    setFocusToOnViewParameter (to_unsigned (onViewIndexWithFocus (ctrl w)))
  else mret tt.

(** [onSketchPos] is passed by reference; the position it holds at the end
    is the result. *)
Definition enforceControlParameters (onSketchPos : Vector2d) : M W Vector2d :=
  modify (on_ctrl (set_prevCursorPosition onSketchPos));;
  onSketchPos' ← (fun w => let '(p, w') := doEnforceControlParameters sp onSketchPos w in
                           (p, w', [DoEnforceControlParameters onSketchPos]));
  modify (on_ctrl (set_lastControlEnforcedPosition onSketchPos'));;
  afterEnforceControlParameters;;
  mret onSketchPos'.

(** The read of the mode table comes first, and is the one step of the
    class that can go wrong. *)
Definition onConstructionMethodChanged (w : W) : option (unit * W * list Call) :=
  n ← ControlAmount.size OnViewParametersT
        (static_cast_int (constructionMethod (handler w)));
  Some ((modify (on_ctrl (set_nOnViewParameter n));;
         call DoConstructionMethodChanged (doConstructionMethodChanged sp);;
         call HandlerUpdateCursor updateCursor;;
         call HandlerReset reset;;
         w' ← get;
         call (HandlerMouseMove (prevCursorPosition (ctrl w')))
              (mouseMove (prevCursorPosition (ctrl w')))) w).

Definition adaptParameters : M W unit :=
  w ← get;
  call (AdaptParameters (lastControlEnforcedPosition (ctrl w)))
       (adaptParameters_at sp (lastControlEnforcedPosition (ctrl w))).

Definition onHandlerModeChanged : M W unit := setModeOnViewParameters.

(** Three virtual functions with an empty body, which the class never calls
    itself. *)
Definition addConstraints : M W unit := mret tt.

Definition firstKeyShortcut : M W unit := mret tt.

Definition secondKeyShortcut : M W unit := mret tt.

Definition tabShortcut : M W unit := passFocusToNextOnViewParameter.

Definition afterHandlerModeChanged : M W unit :=
  w ← get;
  if negb (isState (handler w) End) || continuousMode (handler w) then
    call (HandlerMouseMove (prevCursorPosition (ctrl w)))
         (mouseMove (prevCursorPosition (ctrl w)))
  else mret tt.

(** [setMode(modeenum, modevalue)]: [modeenum] is a reference to an
    enumeration of the caller's, so the assignment is the caller's
    [assign]. *)
Definition setMode (assign : Z -> W -> W) (modevalue : Z) : M W unit :=
  call (AssignMode modevalue) (assign modevalue);;
  call HandlerUpdateCursor updateCursor;;
  call HandlerResetControls handler_resetControls.

End Controller.


(** ** The class as written: no specialisation

    The specialisation points with the bodies they have in the source: all
    empty, and [getState] answering the handler's first state for every
    parameter. *)

Section Base.
Context {SelectModeT ConstructionMethodT Viewer Placement QWidget HandlerT Label : Type}.
Context `{!ControllableHandler SelectModeT ConstructionMethodT Viewer Placement
             HandlerT Label}.

Definition baseSpecialisation : Specialisation SelectModeT QWidget HandlerT Label :=
  {| doInitControls := fun _ w => w;
     doConstructionMethodChanged := fun w => w;
     adaptDrawingToOnViewParameterChange := fun _ _ w => w;
     doEnforceControlParameters := fun onSketchPos w => (onSketchPos, w);
     doChangeDrawSketchHandlerMode := fun w => w;
     configureOnViewParameters := fun w => w;
     adaptParameters_at := fun _ w => w;
     getState := fun h _ => getFirstState h |}.

End Base.

(** ** A tool to run the controller on

    A two-point tool in the manner of the sketcher's line tool: three states,
    two construction methods, labels that record what is done to them, and a
    handler whose member functions do as little as a handler can. *)

Inductive ToolMode := SeekFirst | SeekSecond | ToolEnd.

Inductive ToolMethod := MethodA | MethodB.

#[export] Instance ToolMode_eq_dec : EqDecision ToolMode.
Proof. solve_decision. Defined.

Definition ToolMode_int (s : ToolMode) : Z :=
  match s with SeekFirst => 0 | SeekSecond => 1 | ToolEnd => 2 end.

#[export] Instance ToolMode_enum : SelectModeEnum ToolMode :=
  {| End := ToolEnd;
     SelectModeT_ltb := fun s1 s2 => ToolMode_int s1 <? ToolMode_int s2 |}.

#[export] Instance ToolMethod_enum : ConstructionMethodEnum ToolMethod :=
  {| static_cast_int := fun m => match m with MethodA => 0 | MethodB => 1 end |}.

(** The mode table {A: 2, B: 3}. *)
Definition ToolOnViewParameters : ControlAmount.t := [2; 3].

Inductive LabelCall :=
| SetColor (c : SbColor)
| StopEdit
| Deactivate
| Activate
| SetPoints (p1 p2 : Vector3d)
| StartEdit (val : float)
| SetFocusToSpinbox.

(** Modelled from the spec: the class of the labels is not part of this
    file.  A label here is its [isSet] member, the colour it was built with,
    and the member functions called on it since, in order; a call changes
    nothing else. *)
Record ToolLabel := mkToolLabel {
  label_isSet : bool;
  label_color : SbColor;
  label_calls : list LabelCall
}.

Definition label_call (c : LabelCall) (l : ToolLabel) : ToolLabel :=
  mkToolLabel (label_isSet l) (label_color l) (label_calls l ++ [c]).

#[export] Instance ToolLabel_ops : EditableDatumLabel unit unit ToolLabel :=
  {| newLabel := fun _ _ color _ => mkToolLabel false color [];
     isSet := label_isSet;
     set_isSet := fun b l => mkToolLabel b (label_color l) (label_calls l);
     setColor := fun c => label_call (SetColor c);
     stopEdit := label_call StopEdit;
     deactivate := label_call Deactivate;
     activate := label_call Activate;
     setPoints := fun p1 p2 => label_call (SetPoints p1 p2);
     startEdit := fun val => label_call (StartEdit val);
     setFocusToSpinbox := label_call SetFocusToSpinbox |}.

(** Modelled from the spec: the handler is not part of this file.  This one
    is its state, construction method and continuous-mode flag, and
    [tool_moveTo], the state its movement logic moves to, if any; [isState]
    and [isLastState] compare the state, [reset] goes back to the first
    state, and the other member functions do nothing. *)
Record ToolHandler := mkToolHandler {
  tool_state : ToolMode;
  tool_method : ToolMethod;
  tool_continuous : bool;
  tool_moveTo : option ToolMode
}.

Definition tool_setState (s : ToolMode) (w : World ToolHandler ToolLabel)
  : World ToolHandler ToolLabel :=
  mkWorld (ctrl w)
    (mkToolHandler s (tool_method (handler w)) (tool_continuous (handler w))
       (tool_moveTo (handler w))).

#[export] Instance ToolHandler_ops
  : ControllableHandler ToolMode ToolMethod unit unit ToolHandler ToolLabel :=
  {| state := tool_state;
     isState := fun h s => bool_decide (tool_state h = s);
     isLastState := fun h => bool_decide (tool_state h = ToolEnd);
     getFirstState := fun _ => SeekFirst;
     constructionMethod := tool_method;
     continuousMode := tool_continuous;
     getViewer := fun _ => tt;
     getPlacement := fun _ => tt;
     mouseMove := fun _ w =>
       match tool_moveTo (handler w) with
       | Some s => tool_setState s w
       | None => w
       end;
     preselectAtPoint := fun _ w => w;
     updateCursor := fun w => w;
     reset := tool_setState SeekFirst;
     handler_resetControls := fun w => w |}.

(** The tool without a specialisation. *)
Definition toolBase : Specialisation ToolMode unit ToolHandler ToolLabel :=
  baseSpecialisation.

(** A specialisation in the manner of the line tool: the first two
    parameters belong to the first state and the others to the second; a
    point locked by a value moves the tool on to the second state; the
    enforced position takes its first coordinate from [5.0]. *)
Definition toolSpecialised : Specialisation ToolMode unit ToolHandler ToolLabel :=
  {| doInitControls := fun _ w => w;
     doConstructionMethodChanged := fun w => w;
     adaptDrawingToOnViewParameterChange := fun _ _ w => w;
     doEnforceControlParameters := fun onSketchPos w =>
       (mkVector2d 5 (v2y onSketchPos), w);
     doChangeDrawSketchHandlerMode := tool_setState SeekSecond;
     configureOnViewParameters := fun w => w;
     adaptParameters_at := fun _ w => w;
     getState := fun _ i => if i <? 2 then SeekFirst else SeekSecond |}.

Definition grey : SbColor := mkSbColor 0.75 0.75 0.75.
Definition orange : SbColor := mkSbColor 1 0.125 0.

Definition toolColors : ColorManager := mkColorManager orange grey.

Definition freshLabel : ToolLabel := mkToolLabel false grey [].

(** A world of the tool: [n] fresh labels, the focus at [focus],
    [firstMoveInit] at [moved], both positions at (10, 10), and the handler
    in state [s] with construction method [method]. *)
Definition toolWorld (method : ToolMethod) (n : nat) (focus : Z) (moved : bool)
    (s : ToolMode) (moveTo : option ToolMode) : World ToolHandler ToolLabel :=
  mkWorld
    (mkController true moved (mkVector2d 10 10) (mkVector2d 10 10) focus
       (Z.of_nat n) (replicate n freshLabel) toolColors)
    (mkToolHandler s method false moveTo).


(** ** Notions used to state the properties *)

Section Notions.
Context {SelectModeT ConstructionMethodT Viewer Placement QWidget HandlerT Label : Type}.
Context `{!SelectModeEnum SelectModeT}
        `{!ConstructionMethodEnum ConstructionMethodT}
        `{!EditableDatumLabel Viewer Placement Label}
        `{!ControllableHandler SelectModeT ConstructionMethodT Viewer Placement
             HandlerT Label}.
Variable OnViewParametersT : ControlAmount.t.
Variable sp : Specialisation SelectModeT QWidget HandlerT Label.

(** The two cursor positions the controller keeps. *)
Definition positions (w : World HandlerT Label) : Vector2d * Vector2d :=
  (prevCursorPosition (ctrl w), lastControlEnforcedPosition (ctrl w)).

(** Every call the controller makes to the handler, and every
    specialisation point other than [doEnforceControlParameters], takes a
    world to one related to it by [R]. *)
Record collaborators_in (R : World HandlerT Label -> World HandlerT Label -> Prop)
  : Prop := mkCollaboratorsIn {
  in_mouseMove : forall p w, R w (mouseMove p w);
  in_preselectAtPoint : forall p w, R w (preselectAtPoint p w);
  in_updateCursor : forall w, R w (updateCursor w);
  in_reset : forall w, R w (reset w);
  in_handler_resetControls : forall w, R w (handler_resetControls w);
  in_doInitControls : forall widget w, R w (doInitControls sp widget w);
  in_doConstructionMethodChanged : forall w, R w (doConstructionMethodChanged sp w);
  in_adaptDrawingToOnViewParameterChange :
    forall i value w, R w (adaptDrawingToOnViewParameterChange sp i value w);
  in_doChangeDrawSketchHandlerMode : forall w, R w (doChangeDrawSketchHandlerMode sp w);
  in_configureOnViewParameters : forall w, R w (configureOnViewParameters sp w);
  in_adaptParameters_at : forall p w, R w (adaptParameters_at sp p w)
}.

Definition same_positions (w w' : World HandlerT Label) : Prop :=
  positions w' = positions w.

(** A relation between worlds that holds where the two positions are the
    same, is transitive, and holds across the calls to the collaborators. *)
Record frame_relation (R : World HandlerT Label -> World HandlerT Label -> Prop)
  : Prop := mkFrameRelation {
  frame_keep : forall w w', positions w' = positions w -> R w w';
  frame_trans : forall w1 w2 w3, R w1 w2 -> R w2 w3 -> R w1 w3;
  frame_collaborators : collaborators_in R
}.

(** The worlds reached from a world by steps that keep the two positions and
    by calls of [enforceControlParameters]. *)
Inductive via_enforce : World HandlerT Label -> World HandlerT Label -> Prop :=
| via_same (w w' : World HandlerT Label) :
    positions w' = positions w -> via_enforce w w'
| via_call (pos : Vector2d) (w : World HandlerT Label) :
    via_enforce w (exec (enforceControlParameters sp pos) w)
| via_trans (w1 w2 w3 : World HandlerT Label) :
    via_enforce w1 w2 -> via_enforce w2 w3 -> via_enforce w1 w3.

(** The member functions of the controller other than
    [enforceControlParameters]. *)
Inductive OtherMember :=
| InitControls (widget : QWidget)
| ResetControls
| MouseMoved (originalSketchPosition : Vector2d)
| OnConstructionMethodChanged
| OnViewValueChanged (onviewparameterindex : Z) (value : float)
| ValueChangedSlot (i : Z) (value : float)
| AdaptParametersNow
| OnHandlerModeChanged
| TabShortcut
| AfterHandlerModeChanged
| DoResetControls
| OnMouseMoved (originalSketchPosition : Vector2d)
| AfterEnforceControlParameters
| FinishControlsChanged
| InitNOnViewParameters (n : Z)
| UnsetOnViewParameter (i : Z)
| SetModeOnViewParameters
| SetFocusToOnViewParameter (onviewparameterindex : Z)
| PassFocusToNextOnViewParameter
| ResetOnViewParameters
| AddConstraints
| FirstKeyShortcut
| SecondKeyShortcut.

(** The world a member function ends in; [None] where the mode table is read
    outside its bounds. *)
Definition exec_member (m : OtherMember) (w : World HandlerT Label)
  : option (World HandlerT Label) :=
  match m with
  | InitControls widget => Some (exec (initControls sp widget) w)
  | ResetControls => Some (exec (resetControls sp) w)
  | MouseMoved p => Some (exec (mouseMoved sp p) w)
  | OnConstructionMethodChanged =>
      r ← onConstructionMethodChanged OnViewParametersT sp w; Some (snd (fst r))
  | OnViewValueChanged i value => Some (exec (onViewValueChanged sp i value) w)
  | ValueChangedSlot i value => Some (exec (valueChanged_slot sp i value) w)
  | AdaptParametersNow => Some (exec (adaptParameters sp) w)
  | OnHandlerModeChanged => Some (exec (onHandlerModeChanged sp) w)
  | TabShortcut => Some (exec (tabShortcut sp) w)
  | AfterHandlerModeChanged => Some (exec afterHandlerModeChanged w)
  | DoResetControls => Some (exec (doResetControls sp) w)
  | OnMouseMoved p => Some (exec (onMouseMoved sp p) w)
  | AfterEnforceControlParameters => Some (exec afterEnforceControlParameters w)
  | FinishControlsChanged => Some (exec (finishControlsChanged sp) w)
  | InitNOnViewParameters n => Some (exec (initNOnViewParameters n) w)
  | UnsetOnViewParameter i => Some (exec (unsetOnViewParameter i) w)
  | SetModeOnViewParameters => Some (exec (setModeOnViewParameters sp) w)
  | SetFocusToOnViewParameter i => Some (exec (setFocusToOnViewParameter i) w)
  | PassFocusToNextOnViewParameter => Some (exec (passFocusToNextOnViewParameter sp) w)
  | ResetOnViewParameters => Some (exec (resetOnViewParameters sp) w)
  | AddConstraints => Some (exec addConstraints w)
  | FirstKeyShortcut => Some (exec firstKeyShortcut w)
  | SecondKeyShortcut => Some (exec secondKeyShortcut w)
  end.

(** The first index from [i], among [n] consecutive ones, at which [current]
    holds. *)
Fixpoint first_current (current : Z -> bool) (n : nat) (i : Z) : option Z :=
  match n with
  | O => None
  | S n' => if current i then Some i else first_current current n' (i + 1)
  end.

(** What the loop of [setModeOnViewParameters] does to one label: [current]
    tells whether the label belongs to the handler's current state, [atEnd]
    whether that state is [End]. *)
Definition setMode_label (current atEnd : bool) (l : Label) : Label :=
  if current then startEdit 0%float (setPoints Vector3d_zero Vector3d_zero (activate l))
  else if negb (isSet (stopEdit l)) || atEnd then deactivate (stopEdit l)
  else stopEdit l.

(** Two worlds that differ at most in the labels and the focus index. *)
Definition same_but_labels_and_focus (w w' : World HandlerT Label) : Prop :=
  handler w' = handler w
  /\ init (ctrl w') = init (ctrl w)
  /\ firstMoveInit (ctrl w') = firstMoveInit (ctrl w)
  /\ prevCursorPosition (ctrl w') = prevCursorPosition (ctrl w)
  /\ lastControlEnforcedPosition (ctrl w') = lastControlEnforcedPosition (ctrl w)
  /\ nOnViewParameter (ctrl w') = nOnViewParameter (ctrl w)
  /\ colorManager (ctrl w') = colorManager (ctrl w)
  /\ length (onViewParameters (ctrl w')) = length (onViewParameters (ctrl w)).

(** [mouseMoved] called once for each position of [ps], in order.  The
    result tells, call by call, whether the call found [firstMoveInit] unset,
    that is, whether [onMouseMoved] took its first-movement branch. *)
Fixpoint mouseMoved_calls (ps : list Vector2d) : M (World HandlerT Label) (list bool) :=
  match ps with
  | [] => mret []
  | p :: ps' =>
      w ← get;
      mouseMoved sp p;;
      first ← mouseMoved_calls ps';
      mret (negb (firstMoveInit (ctrl w)) :: first)
  end.

(** A member function takes every world to one related to it by [R]. *)
Definition respects (R : World HandlerT Label -> World HandlerT Label -> Prop)
    {A} (m : M (World HandlerT Label) A) : Prop :=
  forall w, R w (exec m w).

(** What the member functions keep of the focus index and of the number of
    labels: the number of labels, made and to be made, fits an [int], and
    the focus index is [-1], the index of a label, or [0]. *)
Definition focus_invariant (w : World HandlerT Label) : Prop :=
  nOnViewParameter (ctrl w) <= INT_MAX
  /\ nslots w <= INT_MAX
  /\ -1 <= onViewIndexWithFocus (ctrl w)
  /\ (onViewIndexWithFocus (ctrl w) < nslots w \/ onViewIndexWithFocus (ctrl w) = 0).

(** The member functions of the [public] part of the class. *)
Definition public_member (m : OtherMember) : bool :=
  match m with
  | InitControls _ | ResetControls | MouseMoved _ | OnConstructionMethodChanged
  | OnViewValueChanged _ _ | AdaptParametersNow | OnHandlerModeChanged
  | TabShortcut | AfterHandlerModeChanged
  | AddConstraints | FirstKeyShortcut | SecondKeyShortcut => true
  | _ => false
  end.


End Notions.


(** ** Proof tools *)

Ltac unfold_M :=
  unfold mbind, M_mbind, M_bind, mret, M_mret, M_ret, get, modify, call in *.

(** Names the three components of every run that is still taken apart. *)
Ltac split_runs :=
  repeat match goal with
         | |- context [match ?m with pair _ _ => _ end] =>
             lazymatch m with
             | context [match _ with pair _ _ => _ end] => fail
             | _ => destruct m; simpl
             end
         end.

Ltac M_simpl := unfold_M; simpl; split_runs; simpl.

(** * Properties *)

(** ** Integer conversions *)

Lemma to_unsigned_small (z : Z) : 0 <= z < 2 ^ 32 -> to_unsigned z = z.
Proof. intros Hz. unfold to_unsigned. apply Z.mod_small. exact Hz. Qed.

Lemma to_int_small (z : Z) : - 2 ^ 31 <= z < 2 ^ 31 -> to_int z = z.
Proof. intros Hz. unfold to_int. rewrite Z.mod_small; lia. Qed.

Lemma index_conversions (z : Z) :
  0 <= z <= INT_MAX -> to_int z = z /\ to_unsigned z = z /\ to_unsigned (to_int z) = z.
Proof.
  unfold INT_MAX. intros Hz.
  assert (Hi : to_int z = z) by (apply to_int_small; lia).
  assert (Hu : to_unsigned z = z) by (apply to_unsigned_small; lia).
  rewrite Hi. auto.
Qed.

Section Properties.
Context {SelectModeT ConstructionMethodT Viewer Placement QWidget HandlerT Label : Type}.
Context `{!SelectModeEnum SelectModeT}
        `{!ConstructionMethodEnum ConstructionMethodT}
        `{!EditableDatumLabel Viewer Placement Label}
        `{!ControllableHandler SelectModeT ConstructionMethodT Viewer Placement
             HandlerT Label}.
Variable OnViewParametersT : ControlAmount.t.
Variable sp : Specialisation SelectModeT QWidget HandlerT Label.

Abbreviation W := (World HandlerT Label).

(** ** Runs of the monad *)

Lemma exec_bind {A B} (m : M W A) (f : A -> M W B) (w : W) :
  exec (m ≫= f) w = exec (f (result m w)) (exec m w).
Proof.
  unfold exec, result. unfold_M.
  destruct (m w) as [[a w1] t1]. simpl. destruct (f a w1) as [[b w2] t2]. reflexivity.
Qed.

Lemma run_eta {A} (r : A * W * list Call) :
  (let '(a, w, t) := r in (a, w, t)) = r.
Proof. now destruct r as [[a w] t]. Qed.

(** ** Index-based focus operations *)

Lemma setFocus_out_of_range (i : Z) (w : W) :
  nslots w <= i -> setFocusToOnViewParameter i w = (tt, w, []).
Proof.
  intros Hi. unfold setFocusToOnViewParameter. unfold_M.
  destruct (Z.ltb_spec i (nslots w)) as [Hlt | _]; [lia | reflexivity].
Qed.

Lemma nslots_on_label (i : Z) (f : Label -> Label) (w : W) :
  nslots (on_label i f w) = nslots w.
Proof. unfold nslots, on_label. simpl. now rewrite length_alter. Qed.

Lemma setFocus_in_range (i : Z) (w : W) :
  i < nslots w ->
  setFocusToOnViewParameter i w
  = (tt, on_ctrl (set_onViewIndexWithFocus (to_int i)) (on_label i setFocusToSpinbox w), []).
Proof.
  intros Hi. unfold setFocusToOnViewParameter. unfold_M.
  destruct (Z.ltb_spec i (nslots w)) as [_ | Hge]; [reflexivity | lia].
Qed.

(** C9: an index at or past the number of on-view parameters is checked and
    ignored: [setFocusToOnViewParameter] leaves the world as it is (the
    focus index and every label) and calls nothing, and
    [isOnViewParameterOfCurrentMode] answers [false].  With no label at all
    this covers every index. *)
Theorem focus_operations_bounds_checked (i : Z) (w : W) :
  nslots w <= i ->
  setFocusToOnViewParameter i w = (tt, w, [])
  /\ isOnViewParameterOfCurrentMode sp i w = false.
Proof.
  intros Hi. split.
  - unfold setFocusToOnViewParameter. unfold_M.
    destruct (Z.ltb_spec i (nslots w)) as [Hlt | _]; [lia | reflexivity].
  - unfold isOnViewParameterOfCurrentMode.
    destruct (Z.ltb_spec i (nslots w)) as [Hlt | _]; [lia | reflexivity].
Qed.

(** ** The value-changed slot *)

(** C1 (amended): when a value is committed at index [i], the focus step
    looks at the parameter after it: if index [i + 1] is in range and
    belongs to the handler's current state, that label gets the keyboard
    focus and [onViewIndexWithFocus] becomes [i + 1]; otherwise the focus
    step changes nothing.  The specialisation point and the finish routine
    then run on that world. *)
Theorem onViewValueChanged_focus_next (i : Z) (value : float) (w : W) :
  -1 <= i < INT_MAX ->
  let w1 :=
    if isOnViewParameterOfCurrentMode sp (i + 1) w
    then on_ctrl (set_onViewIndexWithFocus (i + 1)) (on_label (i + 1) setFocusToSpinbox w)
    else w in
  onViewValueChanged sp i value w
  = (call (AdaptDrawingToOnViewParameterChange i value)
          (adaptDrawingToOnViewParameterChange sp i value);;
     finishControlsChanged sp) w1
  /\ (isOnViewParameterOfCurrentMode sp (i + 1) w = true ->
      onViewIndexWithFocus (ctrl w1) = i + 1)
  /\ (isOnViewParameterOfCurrentMode sp (i + 1) w = false -> w1 = w).
Proof.
  intros Hi.
  assert (Hconv : to_unsigned (to_int (i + 1)) = i + 1 /\ to_int (i + 1) = i + 1).
  { destruct (index_conversions (i + 1)) as (H1 & _ & H3); [lia | auto]. }
  destruct Hconv as [Hu Hs].
  cbv zeta. split; [| split].
  - unfold onViewValueChanged. rewrite Hu.
    destruct (isOnViewParameterOfCurrentMode sp (i + 1) w) eqn:Hcur.
    + assert (Hlt : i + 1 < nslots w).
      { unfold isOnViewParameterOfCurrentMode in Hcur.
        apply andb_true_iff in Hcur as [Hlt _]. now apply Z.ltb_lt in Hlt. }
      unfold_M. rewrite Hcur.
      pose proof (setFocus_in_range (i + 1) w Hlt) as Hf. unfold_M.
      rewrite Hf, Hs. M_simpl. reflexivity.
    + unfold_M. rewrite Hcur. M_simpl. reflexivity.
  - intros Hcur. rewrite Hcur. reflexivity.
  - intros Hcur. rewrite Hcur. reflexivity.
Qed.

(** ** Activation of the on-view parameters *)

Lemma first_current_Some (current : Z -> bool) (n : nat) :
  forall i j, first_current current n i = Some j ->
    i <= j < i + Z.of_nat n /\ current j = true
    /\ forall k, i <= k < j -> current k = false.
Proof.
  induction n as [| n IH]; intros i j Hj; simpl in Hj; [discriminate |].
  destruct (current i) eqn:Hi.
  - injection Hj as <-. repeat split; [lia | lia | assumption | intros k Hk; lia].
  - apply IH in Hj as (Hrange & Hcur & Hbefore).
    repeat split; [lia | lia | assumption |].
    intros k Hk. destruct (Z.eq_dec k i) as [-> | Hne]; [assumption |].
    apply Hbefore. lia.
Qed.

Lemma first_current_None (current : Z -> bool) (n : nat) :
  forall i, first_current current n i = None ->
    forall k, i <= k < i + Z.of_nat n -> current k = false.
Proof.
  induction n as [| n IH]; intros i Hnone k Hk; simpl in Hnone; [lia |].
  destruct (current i) eqn:Hi; [discriminate |].
  destruct (Z.eq_dec k i) as [-> | Hne]; [assumption |].
  apply (IH (i + 1)); [assumption | lia].
Qed.

Lemma first_current_ext (c1 c2 : Z -> bool) (n : nat) :
  (forall k, c1 k = c2 k) -> forall i, first_current c1 n i = first_current c2 n i.
Proof.
  intros Hext. induction n as [| n IH]; intros i; simpl; [reflexivity |].
  rewrite Hext, IH. reflexivity.
Qed.

Lemma first_current_lowest (current : Z -> bool) (n : nat) (i j : Z) :
  i <= j < i + Z.of_nat n -> current j = true ->
  (forall k, i <= k < j -> current k = false) ->
  first_current current n i = Some j.
Proof.
  intros Hrange Hcur Hbefore.
  destruct (first_current current n i) as [j' |] eqn:Hfc.
  - apply first_current_Some in Hfc as (Hr' & Hc' & Hb').
    destruct (Z.lt_trichotomy j j') as [Hlt | [-> | Hgt]]; [| reflexivity |].
    + rewrite Hb' in Hcur by lia. discriminate.
    + rewrite Hbefore in Hc' by lia. discriminate.
  - rewrite (first_current_None _ _ _ Hfc j Hrange) in Hcur. discriminate.
Qed.

Lemma isOnViewParameterOfCurrentMode_agree (k : Z) (w w' : W) :
  handler w' = handler w ->
  length (onViewParameters (ctrl w')) = length (onViewParameters (ctrl w)) ->
  isOnViewParameterOfCurrentMode sp k w' = isOnViewParameterOfCurrentMode sp k w.
Proof.
  intros Hh Hlen. unfold isOnViewParameterOfCurrentMode, nslots. now rewrite Hh, Hlen.
Qed.

Lemma same_but_labels_and_focus_refl (w : W) : same_but_labels_and_focus w w.
Proof. unfold same_but_labels_and_focus. repeat split. Qed.

Lemma same_but_labels_and_focus_trans (w1 w2 w3 : W) :
  same_but_labels_and_focus w1 w2 -> same_but_labels_and_focus w2 w3 ->
  same_but_labels_and_focus w1 w3.
Proof.
  unfold same_but_labels_and_focus. intros H12 H23.
  decompose [and] H12. decompose [and] H23. repeat split; congruence.
Qed.

Lemma same_on_label (i : Z) (f : Label -> Label) (w : W) :
  same_but_labels_and_focus w (on_label i f w).
Proof.
  unfold same_but_labels_and_focus, on_label, on_ctrl; simpl.
  repeat split. apply length_alter.
Qed.

Lemma same_set_focus (i : Z) (w : W) :
  same_but_labels_and_focus w (on_ctrl (set_onViewIndexWithFocus i) w).
Proof. unfold same_but_labels_and_focus; simpl. repeat split. Qed.

Lemma lookup_on_label (i : Z) (f : Label -> Label) (w : W) (k : nat) :
  onViewParameters (ctrl (on_label i f w)) !! k
  = if decide (k = Z.to_nat i) then f <$> onViewParameters (ctrl w) !! k
    else onViewParameters (ctrl w) !! k.
Proof.
  unfold on_label, on_ctrl; simpl. rewrite list_lookup_alter.
  repeat case_decide; subst; congruence.
Qed.

(** One turn of the loop of [setModeOnViewParameters], at an index that is
    the index of a label. *)
Lemma setMode_body_run (i : Z) (first : bool) (w : W) (l : Label) :
  0 <= i <= INT_MAX ->
  onViewParameters (ctrl w) !! Z.to_nat i = Some l ->
  exists w1 : W,
    setMode_body sp i first w
    = (if isOnViewParameterOfCurrentMode sp i w then false else first, w1, [])
    /\ same_but_labels_and_focus w w1
    /\ (forall k : nat,
          onViewParameters (ctrl w1) !! k
          = if decide (k = Z.to_nat i)
            then Some (setMode_label (isOnViewParameterOfCurrentMode sp i w)
                         (bool_decide (state (handler w) = End)) l)
            else onViewParameters (ctrl w) !! k)
    /\ onViewIndexWithFocus (ctrl w1)
       = if isOnViewParameterOfCurrentMode sp i w && first then i
         else onViewIndexWithFocus (ctrl w).
Proof.
  intros Hi Hl.
  destruct (index_conversions i Hi) as (Hint & Huns & _).
  unfold setMode_body. rewrite Huns, Hint.
  destruct (isOnViewParameterOfCurrentMode sp i w) eqn:Hcur; unfold_M; rewrite Hcur; simpl.
  - destruct first; simpl.
    + eexists. split; [reflexivity |]. split; [| split].
      * repeat (eapply same_but_labels_and_focus_trans; [| apply same_on_label]).
        apply same_set_focus.
      * intros k. rewrite !lookup_on_label. simpl.
        case_decide as Hk; [| reflexivity]. subst k. rewrite Hl. reflexivity.
      * reflexivity.
    + eexists. split; [reflexivity |]. split; [| split].
      * repeat (eapply same_but_labels_and_focus_trans; [| apply same_on_label]).
        apply same_but_labels_and_focus_refl.
      * intros k. rewrite !lookup_on_label.
        case_decide as Hk; [| reflexivity]. subst k. rewrite Hl. reflexivity.
      * reflexivity.
  - assert (Hstop : label_at i (on_label i stopEdit w) = Some (stopEdit l)).
    { unfold label_at. rewrite lookup_on_label.
      case_decide; [| congruence]. now rewrite Hl. }
    unfold label_at in Hstop. unfold label_at. rewrite Hstop. simpl.
    unfold setMode_label.
    destruct (negb (isSet (stopEdit l)) || bool_decide (state (handler w) = End)); simpl.
    + eexists. split; [reflexivity |]. split; [| split].
      * repeat (eapply same_but_labels_and_focus_trans; [| apply same_on_label]).
        apply same_but_labels_and_focus_refl.
      * intros k. rewrite !lookup_on_label.
        case_decide as Hk; [| reflexivity]. subst k. rewrite Hl. reflexivity.
      * reflexivity.
    + eexists. split; [reflexivity |]. split; [| split].
      * apply same_on_label.
      * intros k. rewrite !lookup_on_label.
        case_decide as Hk; [| reflexivity]. subst k. rewrite Hl. reflexivity.
      * reflexivity.
Qed.

(** The loop of [setModeOnViewParameters] from index [i] on, [n] labels
    being left: a label below [i] stays, a label from [i] on is treated
    according to its state, and the focus index moves to the first label of
    the current state, if [first] says none was met yet. *)
Lemma setMode_loop (n : nat) :
  forall (i : Z) (first : bool) (w : W),
    0 <= i -> i + Z.of_nat n = nslots w -> nslots w <= INT_MAX ->
    exists (first' : bool) (w' : W),
      for_loop n i (setMode_body sp) first w = (first', w', [])
      /\ same_but_labels_and_focus w w'
      /\ (forall (k : nat) (l : Label),
            onViewParameters (ctrl w) !! k = Some l ->
            onViewParameters (ctrl w') !! k
            = Some (if Z.of_nat k <? i then l
                    else setMode_label (isOnViewParameterOfCurrentMode sp (Z.of_nat k) w)
                           (bool_decide (state (handler w) = End)) l))
      /\ onViewIndexWithFocus (ctrl w')
         = if first
           then default (onViewIndexWithFocus (ctrl w))
                  (first_current (fun k => isOnViewParameterOfCurrentMode sp k w) n i)
           else onViewIndexWithFocus (ctrl w).
Proof.
  induction n as [| n IH]; intros i first w Hi Hn Hmax.
  - exists first, w. simpl. split; [reflexivity |].
    split; [apply same_but_labels_and_focus_refl |]. split.
    + intros k l Hk. pose proof (lookup_lt_Some _ _ _ Hk) as Hlt. unfold nslots in Hn.
      destruct (Z.ltb_spec (Z.of_nat k) i); [assumption | lia].
    + now destruct first.
  - assert (Hlt : (Z.to_nat i < length (onViewParameters (ctrl w)))%nat)
      by (unfold nslots in Hn; lia).
    destruct (lookup_lt_is_Some_2 _ _ Hlt) as [li Hli].
    destruct (setMode_body_run i first w li) as (w1 & Hbody & Hsame1 & Hlook1 & Hfocus1);
      [lia | assumption |].
    assert (Hh1 : handler w1 = handler w) by apply Hsame1.
    assert (Hlen1 : length (onViewParameters (ctrl w1)) = length (onViewParameters (ctrl w)))
      by apply Hsame1.
    destruct (IH (i + 1)
                (if isOnViewParameterOfCurrentMode sp i w then false else first) w1)
      as (first' & w' & Hloop & Hsame & Hlook & Hfocus);
      [lia | unfold nslots in *; lia | unfold nslots in *; lia |].
    exists first', w'. split; [| split; [| split]].
    + simpl. unfold_M. rewrite Hbody, Hloop. reflexivity.
    + eapply same_but_labels_and_focus_trans; eassumption.
    + intros k l Hk.
      specialize (Hlook1 k). rewrite Hk in Hlook1.
      rewrite Hh1 in Hlook.
      case_decide as Hki.
      * assert (li = l) as -> by (subst k; congruence).
        rewrite (Hlook k _ Hlook1).
        destruct (Z.ltb_spec (Z.of_nat k) (i + 1)); [| lia].
        destruct (Z.ltb_spec (Z.of_nat k) i); [lia |].
        replace (Z.of_nat k) with i by lia. reflexivity.
      * rewrite (Hlook k _ Hlook1).
        rewrite (isOnViewParameterOfCurrentMode_agree _ w w1) by assumption.
        destruct (Z.ltb_spec (Z.of_nat k) (i + 1)), (Z.ltb_spec (Z.of_nat k) i);
          try reflexivity; lia.
    + rewrite Hfocus, Hfocus1. simpl.
      rewrite (first_current_ext _ (fun k => isOnViewParameterOfCurrentMode sp k w))
        by (intros k; now apply isOnViewParameterOfCurrentMode_agree).
      destruct (isOnViewParameterOfCurrentMode sp i w) eqn:Hcur; simpl.
      * now destruct first.
      * reflexivity.
Qed.

(** [setModeOnViewParameters] leaves everything but the labels and the focus
    index as it is, and calls nothing. *)
Lemma setModeOnViewParameters_run (w : W) :
  nslots w <= INT_MAX ->
  exists w' : W,
    setModeOnViewParameters sp w = (tt, w', [])
    /\ same_but_labels_and_focus w w'
    /\ (forall (k : nat) (l : Label),
          onViewParameters (ctrl w) !! k = Some l ->
          onViewParameters (ctrl w') !! k
          = Some (setMode_label (isOnViewParameterOfCurrentMode sp (Z.of_nat k) w)
                    (bool_decide (state (handler w) = End)) l))
    /\ onViewIndexWithFocus (ctrl w')
       = default (-1)
           (first_current (fun k => isOnViewParameterOfCurrentMode sp k w)
              (length (onViewParameters (ctrl w))) 0).
Proof.
  intros Hmax.
  set (w0 := on_ctrl (set_onViewIndexWithFocus (-1)) w).
  destruct (setMode_loop (length (onViewParameters (ctrl w))) 0 true w0)
    as (first' & w' & Hloop & Hsame & Hlook & Hfocus); [lia | reflexivity | assumption |].
  exists w'. split; [| split; [| split]].
  - unfold setModeOnViewParameters. unfold_M. simpl.
    fold w0. rewrite Hloop. reflexivity.
  - eapply same_but_labels_and_focus_trans; [apply same_set_focus | exact Hsame].
  - intros k l Hk. rewrite (Hlook k l Hk).
    destruct (Z.ltb_spec (Z.of_nat k) 0); [lia | reflexivity].
  - exact Hfocus.
Qed.

(** C4: after [setModeOnViewParameters], a label that does not belong to
    the handler's current state has had [stopEdit] called, and then
    [deactivate] unless its [isSet] member is set and the handler is not in
    state [End]; a label that belongs to the current state has had
    [activate], [setPoints] with two null points and [startEdit] with value
    zero called, in this order; the focus index is the lowest index of a
    label of the current state, and [-1] when there is none.  The focus
    index is one index, so no two labels hold the focus.  Nothing else
    changes and nothing is called. *)
Theorem setModeOnViewParameters_activation (w : W) :
  nslots w <= INT_MAX ->
  let w' := exec (setModeOnViewParameters sp) w in
  let current := fun i : Z => isOnViewParameterOfCurrentMode sp i w in
  trace (setModeOnViewParameters sp) w = []
  /\ same_but_labels_and_focus w w'
  /\ (forall (i : nat) (l : Label),
        onViewParameters (ctrl w) !! i = Some l ->
        onViewParameters (ctrl w') !! i
        = Some (if current (Z.of_nat i)
                then startEdit 0%float
                       (setPoints Vector3d_zero Vector3d_zero (activate l))
                else if negb (isSet (stopEdit l)) || bool_decide (state (handler w) = End)
                     then deactivate (stopEdit l)
                     else stopEdit l))
  /\ (forall i : Z,
        0 <= i < nslots w -> current i = true ->
        (forall j, 0 <= j < i -> current j = false) ->
        onViewIndexWithFocus (ctrl w') = i)
  /\ ((forall i : Z, 0 <= i < nslots w -> current i = false) ->
      onViewIndexWithFocus (ctrl w') = -1)
  /\ (forall i j : Z,
        onViewIndexWithFocus (ctrl w') = i -> onViewIndexWithFocus (ctrl w') = j -> i = j).
Proof.
  intros Hmax. cbv zeta.
  destruct (setModeOnViewParameters_run w Hmax) as (w' & Hrun & Hsame & Hlook & Hfocus).
  unfold trace, exec. rewrite Hrun. simpl.
  split; [reflexivity |]. split; [assumption |]. split; [| split; [| split]].
  - intros i l Hi. rewrite (Hlook i l Hi). reflexivity.
  - intros i Hi Hcur Hbefore. rewrite Hfocus.
    rewrite (first_current_lowest _ _ 0 i); [reflexivity | | assumption | assumption].
    unfold nslots in Hi. lia.
  - intros Hnone. rewrite Hfocus.
    destruct (first_current _ _ 0) as [j |] eqn:Hfc; [| reflexivity].
    apply first_current_Some in Hfc as (Hrange & Hcur & _).
    rewrite Hnone in Hcur by (unfold nslots; lia). discriminate.
  - intros i j <- <-. reflexivity.
Qed.

(** ** The first movement of the mouse *)

Lemma setMode_body_same (i : Z) (first : bool) (w : W) :
  exists (first' : bool) (w1 : W),
    setMode_body sp i first w = (first', w1, []) /\ same_but_labels_and_focus w w1.
Proof.
  unfold setMode_body. unfold_M.
  destruct (isOnViewParameterOfCurrentMode sp (to_unsigned i) w); simpl.
  - destruct first; simpl; do 2 eexists; (split; [reflexivity |]);
      repeat (eapply same_but_labels_and_focus_trans; [| apply same_on_label]).
    + apply same_set_focus.
    + apply same_but_labels_and_focus_refl.
  - destruct (negb _ || bool_decide _); simpl; do 2 eexists; (split; [reflexivity |]);
      repeat (eapply same_but_labels_and_focus_trans; [| apply same_on_label]);
      apply same_but_labels_and_focus_refl.
Qed.

Lemma setMode_loop_same (n : nat) :
  forall (i : Z) (first : bool) (w : W),
    exists (first' : bool) (w' : W),
      for_loop n i (setMode_body sp) first w = (first', w', [])
      /\ same_but_labels_and_focus w w'.
Proof.
  induction n as [| n IH]; intros i first w.
  - exists first, w. split; [reflexivity | apply same_but_labels_and_focus_refl].
  - destruct (setMode_body_same i first w) as (first1 & w1 & Hbody & Hsame1).
    destruct (IH (i + 1) first1 w1) as (first' & w' & Hloop & Hsame).
    exists first', w'. split.
    + simpl. unfold_M. rewrite Hbody, Hloop. reflexivity.
    + eapply same_but_labels_and_focus_trans; eassumption.
Qed.

(** [setModeOnViewParameters] calls nothing and touches the labels and the
    focus index only, whatever the number of labels. *)
Lemma setModeOnViewParameters_same (w : W) :
  exists w' : W,
    setModeOnViewParameters sp w = (tt, w', []) /\ same_but_labels_and_focus w w'.
Proof.
  destruct (setMode_loop_same (length (onViewParameters (ctrl w))) 0 true
              (on_ctrl (set_onViewIndexWithFocus (-1)) w))
    as (first' & w' & Hloop & Hsame).
  exists w'. split.
  - unfold setModeOnViewParameters. unfold_M. simpl. rewrite Hloop. reflexivity.
  - eapply same_but_labels_and_focus_trans; [apply same_set_focus | exact Hsame].
Qed.

Lemma mouseMoved_first (p : Vector2d) (w : W) :
  firstMoveInit (ctrl w) = false ->
  mouseMoved sp p w
  = (tt, on_ctrl (set_firstMoveInit true) (exec (setModeOnViewParameters sp) w), []).
Proof.
  intros Hfirst.
  destruct (setModeOnViewParameters_same w) as (w' & Hrun & Hsame).
  assert (Hfirst' : firstMoveInit (ctrl w') = false).
  { destruct Hsame as (_ & _ & Hf & _). congruence. }
  unfold mouseMoved, onMouseMoved, exec. unfold_M.
  rewrite Hfirst. simpl. rewrite Hrun. simpl. rewrite Hfirst'. reflexivity.
Qed.

Lemma mouseMoved_later (p : Vector2d) (w : W) :
  firstMoveInit (ctrl w) = true -> mouseMoved sp p w = (tt, w, []).
Proof.
  intros Hmoved. unfold mouseMoved, onMouseMoved. unfold_M.
  rewrite Hmoved. simpl. rewrite Hmoved. reflexivity.
Qed.

Lemma mouseMoved_calls_later (ps : list Vector2d) (w : W) :
  firstMoveInit (ctrl w) = true ->
  mouseMoved_calls sp ps w = (replicate (length ps) false, w, []).
Proof.
  intros Hmoved. induction ps as [| p ps IH]; [reflexivity |].
  simpl. unfold_M. rewrite (mouseMoved_later p w Hmoved).
  unfold_M. rewrite IH. rewrite Hmoved. reflexivity.
Qed.

(** C8: of a series of calls of [mouseMoved] that starts with
    [firstMoveInit] unset (as [resetControls] leaves it), the first call,
    and no other, takes the first-movement branch and runs
    [setModeOnViewParameters]; it sets [firstMoveInit].  Every later call
    leaves the world as it is and calls nothing, so [firstMoveInit] stays
    set; [resetControls] unsets it. *)
Theorem mouseMoved_first_movement_once (p : Vector2d) (ps : list Vector2d) (w : W) :
  firstMoveInit (ctrl w) = false ->
  let w1 := on_ctrl (set_firstMoveInit true) (exec (setModeOnViewParameters sp) w) in
  mouseMoved sp p w = (tt, w1, [])
  /\ firstMoveInit (ctrl w1) = true
  /\ (forall q : Vector2d, mouseMoved sp q w1 = (tt, w1, []))
  /\ mouseMoved_calls sp (p :: ps) w = (true :: replicate (length ps) false, w1, [])
  /\ firstMoveInit (ctrl (exec (resetControls sp) w1)) = false.
Proof.
  intros Hfirst. cbv zeta.
  set (w1 := on_ctrl (set_firstMoveInit true) (exec (setModeOnViewParameters sp) w)).
  assert (Hmoved : firstMoveInit (ctrl w1) = true) by reflexivity.
  split; [now apply mouseMoved_first |]. split; [assumption |].
  split; [intros q; now apply mouseMoved_later |]. split.
  - simpl. unfold_M. rewrite (mouseMoved_first p w Hfirst). fold w1.
    pose proof (mouseMoved_calls_later ps w1 Hmoved) as Hlater. unfold_M.
    rewrite Hlater, Hfirst. reflexivity.
  - unfold resetControls. rewrite exec_bind. reflexivity.
Qed.

(** ** Rebuilding the on-view parameters *)

Lemma initNOnViewParameters_loop (viewer : Viewer) (placement : Placement) (k : nat) :
  forall (i : Z) (w : W),
    for_loop k i
      (fun (_ : Z) (_ : unit) =>
         w0 ← get;
         modify (on_ctrl (fun c =>
           set_onViewParameters
             (onViewParameters c
                ++ [newLabel viewer placement
                      (dimConstrDeactivatedColor (colorManager (ctrl w0))) true]) c)))
      tt w
    = (tt,
       on_ctrl (fun c =>
         set_onViewParameters
           (onViewParameters c
              ++ replicate k
                   (newLabel viewer placement
                      (dimConstrDeactivatedColor (colorManager (ctrl w))) true)) c) w,
       []).
Proof.
  induction k as [| k IH]; intros i w.
  - simpl. unfold_M. unfold on_ctrl, set_onViewParameters. simpl.
    rewrite app_nil_r. now destruct w as [[]].
  - simpl. unfold_M. simpl. unfold_M. rewrite IH. simpl.
    unfold on_ctrl, set_onViewParameters. simpl.
    now rewrite <- app_assoc.
Qed.

Lemma initNOnViewParameters_run (n : Z) (w : W) :
  initNOnViewParameters n w
  = (tt,
     on_ctrl (set_onViewParameters
                (replicate (Z.to_nat n)
                   (newLabel (getViewer (handler w)) (getPlacement (handler w))
                      (dimConstrDeactivatedColor (colorManager (ctrl w))) true))) w,
     []).
Proof.
  unfold initNOnViewParameters. unfold_M. simpl.
  pose proof (initNOnViewParameters_loop (getViewer (handler w)) (getPlacement (handler w))
                (Z.to_nat n) 0 (on_ctrl (set_onViewParameters []) w)) as Hloop.
  unfold_M. simpl in Hloop. rewrite Hloop. reflexivity.
Qed.

Lemma resetControls_run (w : W) :
  resetControls sp w
  = (tt,
     on_ctrl (set_firstMoveInit false)
       (configureOnViewParameters sp
          (on_ctrl (set_onViewIndexWithFocus 0)
             (on_ctrl (set_onViewParameters
                (replicate (Z.to_nat (nOnViewParameter (ctrl w)))
                   (newLabel (getViewer (handler w)) (getPlacement (handler w))
                      (dimConstrDeactivatedColor (colorManager (ctrl w))) true))) w))),
     [ConfigureOnViewParameters]).
Proof.
  unfold resetControls, doResetControls, resetOnViewParameters. unfold_M.
  rewrite initNOnViewParameters_run. reflexivity.
Qed.

(** C6: for a construction method [m] of the mode table, with
    [nOnViewParameter] holding [size(m)], [resetControls] drops the labels
    there were and builds [size(m)] new ones, all alike, so the number of
    labels is [size(m)]; it unsets [firstMoveInit]; and a second
    [resetControls] changes nothing more.  ([configureOnViewParameters] is
    empty, as in the class.) *)
Theorem resetControls_rebuilds (m : ConstructionMethodT) (n : Z) (w : W) :
  ControlAmount.size OnViewParametersT (static_cast_int m) = Some n ->
  0 <= n ->
  nOnViewParameter (ctrl w) = n ->
  (forall w0 : W, configureOnViewParameters sp w0 = w0) ->
  let w' := exec (resetControls sp) w in
  onViewParameters (ctrl w')
  = replicate (Z.to_nat n)
      (newLabel (getViewer (handler w)) (getPlacement (handler w))
         (dimConstrDeactivatedColor (colorManager (ctrl w))) true)
  /\ nslots w' = n
  /\ firstMoveInit (ctrl w') = false
  /\ trace (resetControls sp) w = [ConfigureOnViewParameters]
  /\ exec (resetControls sp) w' = w'.
Proof.
  intros _ Hn Hcached Hconfigure. cbv zeta.
  unfold exec, trace. rewrite !resetControls_run. simpl.
  rewrite !Hconfigure. simpl. rewrite Hcached.
  repeat split.
  unfold nslots. simpl. rewrite length_replicate. lia.
Qed.

(** ** Passing the focus on *)

(** The loop of [passFocusToNextOnViewParameter] stops at the first label of
    the current state from [index] on, and gives it the focus; it stops at
    the end of the labels otherwise.  Any [fuel] of at least the number of
    labels left gives this result. *)
Lemma passFocus_while_run (fuel : nat) :
  forall (index : Z) (w : W),
    0 <= index -> nslots w <= INT_MAX ->
    (Z.to_nat (nslots w - index) <= fuel)%nat ->
    passFocus_while sp fuel index w
    = match first_current (fun k => isOnViewParameterOfCurrentMode sp k w)
              (Z.to_nat (nslots w - index)) index with
      | Some j => setFocusToOnViewParameter j w
      | None => (tt, w, [])
      end.
Proof.
  induction fuel as [| fuel IH]; intros index w Hindex Hmax Hfuel.
  - assert (Hleft : Z.to_nat (nslots w - index) = 0%nat) by lia.
    rewrite Hleft. simpl. unfold_M.
    destruct (index <? nslots w); reflexivity.
  - simpl. unfold_M.
    destruct (Z.ltb_spec index (nslots w)) as [Hlt | Hge].
    + assert (Hleft : Z.to_nat (nslots w - index)
                      = S (Z.to_nat (nslots w - (index + 1)))) by lia.
      rewrite Hleft. simpl.
      rewrite run_eta.
      destruct (isOnViewParameterOfCurrentMode sp index w); [reflexivity |].
      rewrite to_unsigned_small by (unfold INT_MAX in Hmax; lia).
      apply IH; lia.
    + assert (Hleft : Z.to_nat (nslots w - index) = 0%nat) by lia.
      rewrite Hleft. reflexivity.
Qed.

(** What [passFocusToNextOnViewParameter] does: the search starts after the
    focus index, or at index 0 when that is past the last label, and runs to
    the last label; it does not come back to the labels before its start. *)
Lemma passFocusToNextOnViewParameter_run (w : W) :
  nslots w <= INT_MAX ->
  -1 <= onViewIndexWithFocus (ctrl w) < INT_MAX ->
  let start :=
    if nslots w <=? onViewIndexWithFocus (ctrl w) + 1 then 0
    else onViewIndexWithFocus (ctrl w) + 1 in
  passFocusToNextOnViewParameter sp w
  = match first_current (fun k => isOnViewParameterOfCurrentMode sp k w)
            (Z.to_nat (nslots w - start)) start with
    | Some j =>
        (tt, on_ctrl (set_onViewIndexWithFocus j) (on_label j setFocusToSpinbox w), [])
    | None => (tt, w, [])
    end.
Proof.
  intros Hmax Hfocus. cbv zeta.
  unfold passFocusToNextOnViewParameter. unfold_M.
  destruct (index_conversions (onViewIndexWithFocus (ctrl w) + 1)) as (_ & _ & Hconv);
    [lia |].
  rewrite Hconv.
  set (start := if nslots w <=? onViewIndexWithFocus (ctrl w) + 1 then 0
                else onViewIndexWithFocus (ctrl w) + 1).
  assert (Hstart : 0 <= start).
  { subst start. destruct (_ <=? _); lia. }
  simpl. rewrite run_eta.
  rewrite passFocus_while_run; [| assumption | assumption | unfold nslots; lia].
  destruct (first_current _ _ start) as [j |] eqn:Hfc; [| reflexivity].
  apply first_current_Some in Hfc as (Hrange & _ & _).
  rewrite setFocus_in_range by lia.
  now rewrite to_int_small by (unfold INT_MAX in Hmax; lia).
Qed.

(** ** The two cursor positions *)

Lemma respects_ret {R : W -> W -> Prop} (HR : frame_relation sp R) {A} (a : A) :
  respects R (mret a).
Proof. intros w. apply (frame_keep _ _ HR). reflexivity. Qed.

Lemma respects_bind {R : W -> W -> Prop} (HR : frame_relation sp R) {A B}
    (m : M W A) (f : A -> M W B) :
  respects R m -> (forall a, respects R (f a)) -> respects R (m ≫= f).
Proof.
  intros Hm Hf w. rewrite exec_bind.
  eapply (frame_trans _ _ HR); [apply Hm | apply Hf].
Qed.

Lemma respects_get_bind {R : W -> W -> Prop} (HR : frame_relation sp R) {B}
    (f : W -> M W B) :
  (forall w0, respects R (f w0)) -> respects R (get ≫= f).
Proof. intros Hf w. rewrite exec_bind. apply Hf. Qed.

Lemma respects_if {R : W -> W -> Prop} (HR : frame_relation sp R) {A}
    (b : bool) (m1 m2 : M W A) :
  respects R m1 -> respects R m2 -> respects R (if b then m1 else m2).
Proof. destruct b; auto. Qed.

Lemma respects_modify {R : W -> W -> Prop} (HR : frame_relation sp R) (f : W -> W) :
  (forall w, positions (f w) = positions w) -> respects R (modify f).
Proof. intros Hf w. apply (frame_keep _ _ HR), Hf. Qed.

Lemma respects_call {R : W -> W -> Prop} (HR : frame_relation sp R)
    (c : Call) (f : W -> W) :
  (forall w, R w (f w)) -> respects R (call c f).
Proof. intros Hf w. apply Hf. Qed.

Lemma respects_for_loop {R : W -> W -> Prop} (HR : frame_relation sp R) {A}
    (n : nat) (body : Z -> A -> M W A) :
  (forall i a, respects R (body i a)) ->
  forall i a, respects R (for_loop n i body a).
Proof.
  intros Hbody. induction n as [| n IH]; intros i a; simpl.
  - apply (respects_ret HR).
  - apply (respects_bind HR); [apply Hbody | intros a'; apply IH].
Qed.

(** One step through a member function written with the operations of the
    monad. *)
Ltac respects_step HR :=
  first
    [ apply (respects_ret HR)
    | apply (respects_modify HR); intros ?; reflexivity
    | apply (respects_call HR); solve [apply (frame_collaborators _ _ HR)]
    | apply (respects_get_bind HR); intros ?
    | apply (respects_bind HR); [| intros ?]
    | apply (respects_if HR)
    | apply (respects_for_loop HR); intros ? ? ].

Lemma respects_setFocusToOnViewParameter {R : W -> W -> Prop}
    (HR : frame_relation sp R) (i : Z) :
  respects R (setFocusToOnViewParameter i).
Proof. unfold setFocusToOnViewParameter. repeat respects_step HR. Qed.

Lemma respects_passFocus_while {R : W -> W -> Prop} (HR : frame_relation sp R)
    (fuel : nat) :
  forall index, respects R (passFocus_while sp fuel index).
Proof.
  induction fuel as [| fuel IH]; intros index; simpl.
  - repeat respects_step HR.
  - apply (respects_get_bind HR); intros w0.
    apply (respects_if HR); [| apply (respects_ret HR)].
    apply (respects_if HR); [apply (respects_setFocusToOnViewParameter HR) | apply IH].
Qed.

Lemma respects_passFocusToNextOnViewParameter {R : W -> W -> Prop}
    (HR : frame_relation sp R) :
  respects R (passFocusToNextOnViewParameter sp).
Proof.
  unfold passFocusToNextOnViewParameter.
  apply (respects_get_bind HR); intros w0. apply (respects_passFocus_while HR).
Qed.

Lemma respects_setModeOnViewParameters {R : W -> W -> Prop} (HR : frame_relation sp R) :
  respects R (setModeOnViewParameters sp).
Proof. unfold setModeOnViewParameters, setMode_body. repeat respects_step HR. Qed.

Lemma respects_finishControlsChanged {R : W -> W -> Prop} (HR : frame_relation sp R) :
  respects R (finishControlsChanged sp).
Proof. unfold finishControlsChanged. repeat respects_step HR. Qed.

Lemma respects_onViewValueChanged {R : W -> W -> Prop} (HR : frame_relation sp R)
    (i : Z) (value : float) :
  respects R (onViewValueChanged sp i value).
Proof.
  unfold onViewValueChanged.
  apply (respects_get_bind HR); intros w0.
  apply (respects_bind HR);
    [apply (respects_if HR);
       [apply (respects_setFocusToOnViewParameter HR) | apply (respects_ret HR)] |].
  intros _. apply (respects_bind HR); [respects_step HR | intros _].
  apply (respects_finishControlsChanged HR).
Qed.

Lemma respects_initNOnViewParameters {R : W -> W -> Prop} (HR : frame_relation sp R)
    (n : Z) :
  respects R (initNOnViewParameters n).
Proof. unfold initNOnViewParameters. repeat respects_step HR. Qed.

Lemma respects_resetOnViewParameters {R : W -> W -> Prop} (HR : frame_relation sp R) :
  respects R (resetOnViewParameters sp).
Proof.
  unfold resetOnViewParameters.
  apply (respects_get_bind HR); intros w0.
  apply (respects_bind HR); [apply (respects_initNOnViewParameters HR) | intros _].
  repeat respects_step HR.
Qed.

Lemma respects_resetControls {R : W -> W -> Prop} (HR : frame_relation sp R) :
  respects R (resetControls sp).
Proof.
  unfold resetControls, doResetControls.
  apply (respects_bind HR); [apply (respects_resetOnViewParameters HR) | intros _].
  repeat respects_step HR.
Qed.

Lemma respects_onMouseMoved {R : W -> W -> Prop} (HR : frame_relation sp R)
    (p : Vector2d) :
  respects R (onMouseMoved sp p).
Proof.
  unfold onMouseMoved. apply (respects_get_bind HR); intros w0.
  apply (respects_if HR);
    [apply (respects_setModeOnViewParameters HR) | apply (respects_ret HR)].
Qed.

Lemma respects_afterEnforceControlParameters {R : W -> W -> Prop}
    (HR : frame_relation sp R) :
  respects R afterEnforceControlParameters.
Proof.
  unfold afterEnforceControlParameters. apply (respects_get_bind HR); intros w0.
  apply (respects_if HR);
    [apply (respects_setFocusToOnViewParameter HR) | apply (respects_ret HR)].
Qed.

Lemma respects_onConstructionMethodChanged {R : W -> W -> Prop}
    (HR : frame_relation sp R) (w : W) (r : unit * W * list Call) :
  onConstructionMethodChanged OnViewParametersT sp w = Some r -> R w (snd (fst r)).
Proof.
  unfold onConstructionMethodChanged. intros Hr.
  destruct (ControlAmount.size _ _) as [n |]; [| discriminate].
  simpl in Hr. injection Hr as <-. simpl.
  repeat (eapply (frame_trans _ _ HR); [| solve [apply (frame_collaborators _ _ HR)]]).
  apply (frame_keep _ _ HR). reflexivity.
Qed.

Lemma respects_setMode {R : W -> W -> Prop} (HR : frame_relation sp R)
    (assign : Z -> W -> W) (modevalue : Z) :
  (forall w, R w (assign modevalue w)) -> respects R (setMode assign modevalue).
Proof.
  intros Hassign. unfold setMode.
  apply (respects_bind HR); [apply (respects_call HR), Hassign | intros _].
  repeat respects_step HR.
Qed.

(** Turns a goal about the world a member function ends in into one about
    the member function. *)
Ltac to_respects :=
  match goal with
  | |- ?R0 ?w0 (exec ?op ?w0) => revert w0; change (respects R0 op)
  end.

(** Every member function other than [enforceControlParameters] relates the
    world it starts in to the world it ends in, for every relation between
    worlds that is transitive, holds where the two positions are the same,
    and holds across the calls to the collaborators. *)
Lemma members_respect {R : W -> W -> Prop} (HR : frame_relation sp R)
    (m : OtherMember) (w w' : W) :
  exec_member OnViewParametersT sp m w = Some w' -> R w w'.
Proof.
  destruct m; simpl; intros Hm;
    try (injection Hm as <-; to_respects).
  - unfold initControls.
    apply (respects_bind HR); [respects_step HR | intros _].
    apply (respects_bind HR); [apply (respects_resetControls HR) | intros _].
    repeat respects_step HR.
  - apply (respects_resetControls HR).
  - unfold mouseMoved.
    apply (respects_bind HR); [apply (respects_onMouseMoved HR) | intros _].
    repeat respects_step HR.
  - destruct (onConstructionMethodChanged OnViewParametersT sp w) as [r |] eqn:Hr;
      [| discriminate].
    simpl in Hm. injection Hm as <-.
    now apply (respects_onConstructionMethodChanged HR).
  - apply (respects_onViewValueChanged HR).
  - unfold valueChanged_slot.
    apply (respects_get_bind HR); intros w0.
    apply (respects_bind HR); [respects_step HR | intros _].
    apply (respects_onViewValueChanged HR).
  - unfold adaptParameters. repeat respects_step HR.
  - apply (respects_setModeOnViewParameters HR).
  - apply (respects_passFocusToNextOnViewParameter HR).
  - unfold afterHandlerModeChanged. repeat respects_step HR.
  - apply (respects_resetOnViewParameters HR).
  - apply (respects_onMouseMoved HR).
  - apply (respects_afterEnforceControlParameters HR).
  - apply (respects_finishControlsChanged HR).
  - apply (respects_initNOnViewParameters HR).
  - unfold unsetOnViewParameter. repeat respects_step HR.
  - apply (respects_setModeOnViewParameters HR).
  - apply (respects_setFocusToOnViewParameter HR).
  - apply (respects_passFocusToNextOnViewParameter HR).
  - apply (respects_resetOnViewParameters HR).
  - unfold addConstraints. apply (respects_ret HR).
  - unfold firstKeyShortcut. apply (respects_ret HR).
  - unfold secondKeyShortcut. apply (respects_ret HR).
Qed.


Lemma enforceControlParameters_run (pos : Vector2d) (w : W) :
  let w1 := on_ctrl (set_prevCursorPosition pos) w in
  let pos' := fst (doEnforceControlParameters sp pos w1) in
  let w2 := snd (doEnforceControlParameters sp pos w1) in
  let w3 := on_ctrl (set_lastControlEnforcedPosition pos') w2 in
  enforceControlParameters sp pos w
  = (pos', exec afterEnforceControlParameters w3, [DoEnforceControlParameters pos]).
Proof.
  cbv zeta. unfold enforceControlParameters, exec.
  assert (Hafter : forall w3 : W, snd (afterEnforceControlParameters w3) = []).
  { intros w3. unfold afterEnforceControlParameters, setFocusToOnViewParameter.
    unfold_M. destruct (0 <=? _); [| reflexivity]. destruct (_ <? _); reflexivity. }
  unfold_M. simpl.
  destruct (doEnforceControlParameters sp pos _) as [pos' w2]. simpl.
  specialize (Hafter (on_ctrl (set_lastControlEnforcedPosition pos') w2)).
  destruct (afterEnforceControlParameters _) as [[u w4] t]. simpl in *.
  subst t. reflexivity.
Qed.

Lemma afterEnforceControlParameters_positions (w : W) :
  positions (exec afterEnforceControlParameters w) = positions w.
Proof.
  unfold afterEnforceControlParameters, setFocusToOnViewParameter, exec.
  unfold_M. destruct (0 <=? _); [| reflexivity]. destruct (_ <? _); reflexivity.
Qed.

(** C7: [enforceControlParameters] stores the raw position in
    [prevCursorPosition] before the specialisation point runs, stores the
    position the specialisation point leaves in
    [lastControlEnforcedPosition] after it, and then gives the keyboard
    focus back to the label at [onViewIndexWithFocus], when that index is
    the index of a label; the specialisation point is the only call it
    makes.  No other member function assigns to either position: whatever
    holds across the calls to the handler and to the specialisation points
    (and where the positions stay the same, and in sequence) holds across
    every other member function.  So where these calls leave the two
    positions as they are, every other member function does; and where
    these calls change them through [enforceControlParameters] only, they
    change through [enforceControlParameters] only. *)
Theorem positions_written_by_enforce_only :
  (forall (pos : Vector2d) (w : W),
      let w1 := on_ctrl (set_prevCursorPosition pos) w in
      let pos' := fst (doEnforceControlParameters sp pos w1) in
      let w2 := snd (doEnforceControlParameters sp pos w1) in
      let w3 := on_ctrl (set_lastControlEnforcedPosition pos') w2 in
      let f := onViewIndexWithFocus (ctrl w3) in
      let w4 := exec (enforceControlParameters sp pos) w in
      prevCursorPosition (ctrl w1) = pos
      /\ result (enforceControlParameters sp pos) w = pos'
      /\ trace (enforceControlParameters sp pos) w = [DoEnforceControlParameters pos]
      /\ lastControlEnforcedPosition (ctrl w4) = pos'
      /\ prevCursorPosition (ctrl w4) = prevCursorPosition (ctrl w2)
      /\ (0 <= f < nslots w3 -> f <= INT_MAX ->
          w4 = on_ctrl (set_onViewIndexWithFocus f) (on_label f setFocusToSpinbox w3))
      /\ (f < 0 \/ nslots w3 <= f <= INT_MAX -> w4 = w3))
  /\ (forall R : W -> W -> Prop,
        frame_relation sp R ->
        (forall (m : OtherMember) (w w' : W),
            exec_member OnViewParametersT sp m w = Some w' -> R w w')
        /\ (forall (assign : Z -> W -> W) (modevalue : Z) (w : W),
               (forall w0, R w0 (assign modevalue w0)) ->
               R w (exec (setMode assign modevalue) w)))
  /\ (collaborators_in sp same_positions ->
      forall (m : OtherMember) (w w' : W),
        exec_member OnViewParametersT sp m w = Some w' -> positions w' = positions w)
  /\ (collaborators_in sp (via_enforce sp) ->
      forall (m : OtherMember) (w w' : W),
        exec_member OnViewParametersT sp m w = Some w' -> via_enforce sp w w').
Proof.
  split; [| split; [| split]].
  - intros pos w. cbv zeta.
    pose proof (enforceControlParameters_run pos w) as Hrun. cbv zeta in Hrun.
    unfold result, trace, exec. rewrite Hrun. cbn [fst snd].
    set (w3 := on_ctrl (set_lastControlEnforcedPosition _) _).
    pose proof (afterEnforceControlParameters_positions w3) as Hpos.
    unfold positions in Hpos. injection Hpos as Hprev Hlast.
    fold (exec afterEnforceControlParameters w3).
    repeat split; auto.
    + intros Hf Hmax. unfold exec, afterEnforceControlParameters. unfold_M.
      destruct (Z.leb_spec 0 (onViewIndexWithFocus (ctrl w3))) as [_ | Hneg]; [| lia].
      destruct (index_conversions (onViewIndexWithFocus (ctrl w3))) as (Hi & Hu & _);
        [lia |].
      rewrite Hu, setFocus_in_range by lia. rewrite Hi. reflexivity.
    + intros Hf. unfold exec, afterEnforceControlParameters. unfold_M.
      destruct (Z.leb_spec 0 (onViewIndexWithFocus (ctrl w3))) as [Hpos' | Hneg];
        [| reflexivity].
      destruct Hf as [Hf | Hf]; [lia |].
      destruct (index_conversions (onViewIndexWithFocus (ctrl w3))) as (_ & Hu & _);
        [lia |].
      rewrite Hu, setFocus_out_of_range by lia. reflexivity.
  - intros R HR. split.
    + intros m w w' Hm. exact (members_respect HR m w w' Hm).
    + intros assign modevalue w Hassign.
      exact (respects_setMode HR assign modevalue Hassign w).
  - intros Hcollab.
    assert (HR : frame_relation sp same_positions).
    { constructor; [auto | | assumption].
      intros w1 w2 w3 H12 H23. unfold same_positions in *. congruence. }
    intros m w w' Hm. exact (members_respect HR m w w' Hm).
  - intros Hcollab.
    assert (HR : frame_relation sp (via_enforce sp)).
    { constructor; [apply via_same | apply via_trans | assumption]. }
    intros m w w' Hm. exact (members_respect HR m w w' Hm).
Qed.

(** The finish routine, run from any world: the calls it makes and the
    world it ends in. *)
Lemma finishControlsChanged_run (w0 : W) :
  let p1 := prevCursorPosition (ctrl w0) in
  let w1 := mouseMove p1 w0 in
  let currentstate := state (handler w1) in
  let q := lastControlEnforcedPosition (ctrl w1) in
  let w2 := preselectAtPoint q w1 in
  let w3 := doChangeDrawSketchHandlerMode sp w2 in
  let again :=
    negb (isLastState (handler w3))
    && negb (bool_decide (state (handler w3) = currentstate))
    && firstMoveInit (ctrl w3) in
  finishControlsChanged sp w0
  = (tt,
     if again then mouseMove (prevCursorPosition (ctrl w3)) w3 else w3,
     [HandlerMouseMove p1; HandlerPreselectAtPoint q; DoChangeDrawSketchHandlerMode]
       ++ (if again then [HandlerMouseMove (prevCursorPosition (ctrl w3))] else [])).
Proof.
  cbv zeta. unfold finishControlsChanged. unfold_M. simpl.
  destruct (negb (isLastState _) && negb (bool_decide _) && firstMoveInit _);
    reflexivity.
Qed.

(** The value-changed slot is the focus step, which calls nothing, then the
    specialisation point, then the finish routine: the calls it makes. *)
Lemma onViewValueChanged_run (i : Z) (value : float) (w : W) :
  let w0 :=
    adaptDrawingToOnViewParameterChange sp i value
      (if isOnViewParameterOfCurrentMode sp (to_unsigned (to_int (i + 1))) w
       then on_ctrl (set_onViewIndexWithFocus (to_int (to_unsigned (to_int (i + 1)))))
              (on_label (to_unsigned (to_int (i + 1))) setFocusToSpinbox w)
       else w) in
  trace (onViewValueChanged sp i value) w
  = AdaptDrawingToOnViewParameterChange i value :: trace (finishControlsChanged sp) w0.
Proof.
  cbv zeta. unfold onViewValueChanged, trace.
  destruct (isOnViewParameterOfCurrentMode sp (to_unsigned (to_int (i + 1))) w) eqn:Hcur.
  - assert (Hlt : to_unsigned (to_int (i + 1)) < nslots w).
    { unfold isOnViewParameterOfCurrentMode in Hcur.
      apply andb_true_iff in Hcur as [Hlt _]. now apply Z.ltb_lt in Hlt. }
    pose proof (setFocus_in_range _ w Hlt) as Hf.
    unfold_M. rewrite Hcur, Hf. cbn -[finishControlsChanged].
    split_runs. reflexivity.
  - unfold_M. rewrite Hcur. cbn -[finishControlsChanged].
    split_runs. reflexivity.
Qed.

(** The world the value-changed slot ends in. *)
Lemma onViewValueChanged_exec (i : Z) (value : float) (w : W) :
  exec (onViewValueChanged sp i value) w
  = exec (finishControlsChanged sp)
      (adaptDrawingToOnViewParameterChange sp i value
         (if isOnViewParameterOfCurrentMode sp (to_unsigned (to_int (i + 1))) w
          then on_ctrl (set_onViewIndexWithFocus (to_int (to_unsigned (to_int (i + 1)))))
                 (on_label (to_unsigned (to_int (i + 1))) setFocusToSpinbox w)
          else w)).
Proof.
  unfold onViewValueChanged, exec.
  destruct (isOnViewParameterOfCurrentMode sp (to_unsigned (to_int (i + 1))) w) eqn:Hcur.
  - assert (Hlt : to_unsigned (to_int (i + 1)) < nslots w).
    { unfold isOnViewParameterOfCurrentMode in Hcur.
      apply andb_true_iff in Hcur as [Hlt _]. now apply Z.ltb_lt in Hlt. }
    pose proof (setFocus_in_range _ w Hlt) as Hf.
    unfold_M. rewrite Hcur, Hf. cbn -[finishControlsChanged].
    split_runs. reflexivity.
  - unfold_M. rewrite Hcur. cbn -[finishControlsChanged].
    split_runs. reflexivity.
Qed.

(** The focus step touches the focus index and one label only. *)
Lemma focus_step_keeps (j : Z) (w : W) :
  let wf :=
    if isOnViewParameterOfCurrentMode sp j w
    then on_ctrl (set_onViewIndexWithFocus (to_int j)) (on_label j setFocusToSpinbox w)
    else w in
  positions wf = positions w
  /\ firstMoveInit (ctrl wf) = firstMoveInit (ctrl w)
  /\ handler wf = handler w.
Proof.
  cbv zeta. destruct (isOnViewParameterOfCurrentMode sp j w); repeat split.
Qed.

(** C2 (amended): [onViewValueChanged] on a world [w] enters the finish
    routine in the world [w0] that the specialisation point
    [adaptDrawingToOnViewParameterChange] leaves, run after the focus step;
    the focus step keeps the two positions, [firstMoveInit] and the
    handler.  From [w0] the calls are, in this order: [mouseMove] at the raw
    position of [w0], [preselectAtPoint] at the enforced position as it is
    after that [mouseMove], the mode-changing specialisation point, and
    possibly [mouseMove] once more, at the raw position as it is then.  So
    [mouseMove] is called at most twice, and it is called the second time
    exactly when the handler is not in its last state, its state differs
    from the state read right after the first [mouseMove] (a change made by
    [preselectAtPoint] or by the specialisation point), and [firstMoveInit]
    is set.  The slot ends in the world these calls leave. *)
Theorem onViewValueChanged_replays (i : Z) (value : float) (w : W) :
  let next := to_unsigned (to_int (i + 1)) in
  let wf :=
    if isOnViewParameterOfCurrentMode sp next w
    then on_ctrl (set_onViewIndexWithFocus (to_int next)) (on_label next setFocusToSpinbox w)
    else w in
  let w0 := adaptDrawingToOnViewParameterChange sp i value wf in
  let p1 := prevCursorPosition (ctrl w0) in
  let w1 := mouseMove p1 w0 in
  let currentstate := state (handler w1) in
  let q := lastControlEnforcedPosition (ctrl w1) in
  let w2 := preselectAtPoint q w1 in
  let w3 := doChangeDrawSketchHandlerMode sp w2 in
  let p2 := prevCursorPosition (ctrl w3) in
  let t := trace (onViewValueChanged sp i value) w in
  (positions wf = positions w
   /\ firstMoveInit (ctrl wf) = firstMoveInit (ctrl w)
   /\ handler wf = handler w)
  /\ (exists again : list Call,
        t = [AdaptDrawingToOnViewParameterChange i value;
             HandlerMouseMove p1; HandlerPreselectAtPoint q;
             DoChangeDrawSketchHandlerMode] ++ again
        /\ (again = [] \/ again = [HandlerMouseMove p2]))
  /\ (count_mouseMove t <= 2)%nat
  /\ (count_mouseMove t = 2%nat
      <-> isLastState (handler w3) = false
          /\ state (handler w3) <> currentstate
          /\ firstMoveInit (ctrl w3) = true)
  /\ exec (onViewValueChanged sp i value) w
     = (if (count_mouseMove t =? 2)%nat then mouseMove p2 w3 else w3).
Proof.
  cbv zeta. split; [apply focus_step_keeps |].
  rewrite onViewValueChanged_run, onViewValueChanged_exec.
  set (w0 := adaptDrawingToOnViewParameterChange sp i value _).
  unfold trace, exec. rewrite (finishControlsChanged_run w0). cbv zeta. cbn [fst snd].
  destruct (isLastState _) eqn:Hlast; simpl.
  { split; [exists []; split; [reflexivity | now left] |].
    unfold count_mouseMove; simpl. split; [lia |]. split; [| reflexivity].
    split; [lia | intros (? & _); congruence]. }
  case_bool_decide as Hst; simpl.
  { split; [exists []; split; [reflexivity | now left] |].
    unfold count_mouseMove; simpl. split; [lia |]. split; [| reflexivity].
    split; [lia | intros (_ & ? & _); congruence]. }
  destruct (firstMoveInit _) eqn:Hmoved; simpl.
  - split; [eexists; split; [reflexivity | now right] |].
    unfold count_mouseMove; simpl. split; [lia |]. split; [| reflexivity].
    split; auto.
  - split; [exists []; split; [reflexivity | now left] |].
    unfold count_mouseMove; simpl. split; [lia |]. split; [| reflexivity].
    split; [lia | intros (_ & _ & ?); congruence].
Qed.

(** ** Change of the construction method *)

(** C3: [onConstructionMethodChanged] reads the number of on-view
    parameters of the handler's construction method from the mode table and
    stores it; then, and in this order, it runs the specialisation point (on
    a world that already holds the new number), the handler's
    [updateCursor], the handler's [reset], and the handler's [mouseMove] at
    the raw position recorded when [reset] has returned.  [mouseMove] is the
    last call, right after [reset]. *)
Theorem onConstructionMethodChanged_order (w : W) (n : Z) :
  ControlAmount.size OnViewParametersT
    (static_cast_int (constructionMethod (handler w))) = Some n ->
  let w1 := on_ctrl (set_nOnViewParameter n) w in
  let w2 := doConstructionMethodChanged sp w1 in
  let w3 := updateCursor w2 in
  let w4 := reset w3 in
  let p := prevCursorPosition (ctrl w4) in
  nOnViewParameter (ctrl w1) = n
  /\ onConstructionMethodChanged OnViewParametersT sp w
     = Some (tt, mouseMove p w4,
             [DoConstructionMethodChanged; HandlerUpdateCursor; HandlerReset;
              HandlerMouseMove p]).
Proof.
  intros Hsize. cbv zeta. split; [reflexivity |].
  unfold onConstructionMethodChanged. rewrite Hsize. reflexivity.
Qed.

(** ** After a change of state of the handler *)

(** C10: [afterHandlerModeChanged] calls the handler's [mouseMove], at the
    last raw position, when the handler is not in state [End] or its
    continuous mode is on, and only then: with the handler in [End] and
    continuous mode off it calls nothing and changes nothing. *)
Theorem afterHandlerModeChanged_replay (w : W) :
  let p := prevCursorPosition (ctrl w) in
  (isState (handler w) End = false \/ continuousMode (handler w) = true ->
   afterHandlerModeChanged w = (tt, mouseMove p w, [HandlerMouseMove p]))
  /\ (isState (handler w) End = true /\ continuousMode (handler w) = false ->
      afterHandlerModeChanged w = (tt, w, []))
  /\ (count_mouseMove (trace afterHandlerModeChanged w) = 1%nat
      <-> isState (handler w) End = false \/ continuousMode (handler w) = true).
Proof.
  cbv zeta. unfold trace, afterHandlerModeChanged. unfold_M.
  destruct (isState (handler w) End), (continuousMode (handler w)); simpl;
    unfold count_mouseMove; simpl; intuition congruence.
Qed.

End Properties.


(** * More of the class *)

Section Protocol.
Context {SelectModeT ConstructionMethodT Viewer Placement QWidget HandlerT Label : Type}.
Context `{!SelectModeEnum SelectModeT}
        `{!ConstructionMethodEnum ConstructionMethodT}
        `{!EditableDatumLabel Viewer Placement Label}
        `{!ControllableHandler SelectModeT ConstructionMethodT Viewer Placement
             HandlerT Label}.
Variable OnViewParametersT : ControlAmount.t.
Variable sp : Specialisation SelectModeT QWidget HandlerT Label.

Abbreviation W := (World HandlerT Label).

(** ** Where the tabulator takes the focus *)

(** The two ways [passFocusToNextOnViewParameter] ends. *)
Lemma passFocusToNextOnViewParameter_cases (w : W) :
  nslots w <= INT_MAX ->
  -1 <= onViewIndexWithFocus (ctrl w) < INT_MAX ->
  let start :=
    if nslots w <=? onViewIndexWithFocus (ctrl w) + 1 then 0
    else onViewIndexWithFocus (ctrl w) + 1 in
  let current := fun k : Z => isOnViewParameterOfCurrentMode sp k w in
  (exists j : Z,
      start <= j < nslots w
      /\ current j = true
      /\ (forall k, start <= k < j -> current k = false)
      /\ passFocusToNextOnViewParameter sp w
         = (tt, on_ctrl (set_onViewIndexWithFocus j) (on_label j setFocusToSpinbox w), []))
  \/ ((forall k, start <= k < nslots w -> current k = false)
      /\ passFocusToNextOnViewParameter sp w = (tt, w, [])).
Proof.
  intros Hmax Hfocus. cbv zeta.
  pose proof (passFocusToNextOnViewParameter_run sp w Hmax Hfocus) as Hrun.
  cbv zeta in Hrun.
  set (start := if nslots w <=? onViewIndexWithFocus (ctrl w) + 1 then 0
                else onViewIndexWithFocus (ctrl w) + 1) in *.
  assert (Hstart : 0 <= start <= nslots w).
  { subst start.
    destruct (Z.leb_spec (nslots w) (onViewIndexWithFocus (ctrl w) + 1));
      unfold nslots in *; lia. }
  destruct (first_current _ _ start) as [j |] eqn:Hfc.
  - left. exists j. apply first_current_Some in Hfc as (Hrange & Hcur & Hbefore).
    repeat split; try assumption; lia.
  - right. split; [| assumption].
    intros k Hk. apply (first_current_None _ _ _ Hfc). lia.
Qed.

(** X1: [passFocusToNextOnViewParameter] looks from the index after the
    focus index (from index 0 when that is past the last label) up to the
    last label.  The first label of the handler's current state it meets
    gets the keyboard focus and the focus index; when it meets none, nothing
    changes.  It calls neither the handler nor a specialisation point. *)
Theorem passFocusToNextOnViewParameter_target (w : W) :
  nslots w <= INT_MAX ->
  -1 <= onViewIndexWithFocus (ctrl w) < INT_MAX ->
  let start :=
    if nslots w <=? onViewIndexWithFocus (ctrl w) + 1 then 0
    else onViewIndexWithFocus (ctrl w) + 1 in
  let current := fun k : Z => isOnViewParameterOfCurrentMode sp k w in
  (exists j : Z,
      start <= j < nslots w
      /\ current j = true
      /\ (forall k, start <= k < j -> current k = false)
      /\ passFocusToNextOnViewParameter sp w
         = (tt, on_ctrl (set_onViewIndexWithFocus j) (on_label j setFocusToSpinbox w), []))
  \/ ((forall k, start <= k < nslots w -> current k = false)
      /\ passFocusToNextOnViewParameter sp w = (tt, w, [])).
Proof. exact (passFocusToNextOnViewParameter_cases w). Qed.

Lemma passFocusToNextOnViewParameter_next (w : W) :
  0 < nslots w <= INT_MAX ->
  -1 <= onViewIndexWithFocus (ctrl w) < nslots w ->
  (forall k, 0 <= k < nslots w -> isOnViewParameterOfCurrentMode sp k w = true) ->
  passFocusToNextOnViewParameter sp w
  = (tt,
     on_ctrl (set_onViewIndexWithFocus ((onViewIndexWithFocus (ctrl w) + 1) mod nslots w))
       (on_label ((onViewIndexWithFocus (ctrl w) + 1) mod nslots w) setFocusToSpinbox w),
     []).
Proof.
  intros Hn Hfocus Hall.
  assert (Htarget := passFocusToNextOnViewParameter_cases w).
  cbv zeta in Htarget.
  set (start := if nslots w <=? onViewIndexWithFocus (ctrl w) + 1 then 0
                else onViewIndexWithFocus (ctrl w) + 1) in *.
  assert (Hstart : 0 <= start < nslots w
                   /\ start = (onViewIndexWithFocus (ctrl w) + 1) mod nslots w).
  { subst start.
    destruct (Z.leb_spec (nslots w) (onViewIndexWithFocus (ctrl w) + 1)) as [Hlast | Hin].
    - assert (Heq : onViewIndexWithFocus (ctrl w) + 1 = nslots w) by lia.
      rewrite Heq, Z.mod_same by lia. lia.
    - rewrite Z.mod_small by lia. lia. }
  destruct Hstart as [Hrange Hmod]. rewrite <- Hmod.
  destruct Htarget as [(j & Hj & Hcur & Hbefore & Hrun) | [Hnone _]]; [lia | lia | |].
  - assert (Hjs : j = start).
    { destruct (Z.eq_dec j start) as [Heq | Hne]; [assumption |].
      assert (Hfalse : isOnViewParameterOfCurrentMode sp start w = false)
        by (apply Hbefore; lia).
      rewrite Hall in Hfalse by lia. discriminate. }
    now rewrite <- Hjs.
  - assert (Hfalse : isOnViewParameterOfCurrentMode sp start w = false)
      by (apply Hnone; lia).
    rewrite Hall in Hfalse by lia. discriminate.
Qed.

(** [k] presses of the tabulator, every label being of the current state. *)
Lemma tabShortcut_iter (w : W) (k : nat) :
  0 < nslots w <= INT_MAX ->
  -1 <= onViewIndexWithFocus (ctrl w) < nslots w ->
  (forall i, 0 <= i < nslots w -> isOnViewParameterOfCurrentMode sp i w = true) ->
  let wk := Nat.iter k (exec (tabShortcut sp)) w in
  handler wk = handler w
  /\ length (onViewParameters (ctrl wk)) = length (onViewParameters (ctrl w))
  /\ (k <> 0%nat ->
      onViewIndexWithFocus (ctrl wk)
      = (onViewIndexWithFocus (ctrl w) + Z.of_nat k) mod nslots w).
Proof.
  intros Hn Hfocus Hall. cbv zeta.
  induction k as [| k IH].
  - simpl. repeat split. intros Hk. now contradiction Hk.
  - destruct IH as (Hh & Hlen & Hfk).
    set (wk := Nat.iter k (exec (tabShortcut sp)) w) in *.
    assert (Hnk : nslots wk = nslots w) by (unfold nslots; now rewrite Hlen).
    assert (Hfocusk : -1 <= onViewIndexWithFocus (ctrl wk) < nslots wk).
    { destruct k as [| k'].
      - subst wk. simpl. lia.
      - rewrite Hfk by discriminate. rewrite Hnk.
        pose proof (Z.mod_pos_bound
                      (onViewIndexWithFocus (ctrl w) + Z.of_nat (S k')) (nslots w)).
        lia. }
    assert (Hallk : forall i, 0 <= i < nslots wk ->
                      isOnViewParameterOfCurrentMode sp i wk = true).
    { intros i Hi.
      rewrite (isOnViewParameterOfCurrentMode_agree sp i w wk) by assumption.
      apply Hall. lia. }
    assert (Hstep := passFocusToNextOnViewParameter_next wk ltac:(lia) Hfocusk Hallk).
    change (Nat.iter (S k) (exec (tabShortcut sp)) w)
      with (exec (tabShortcut sp) wk).
    unfold tabShortcut, exec. rewrite Hstep. simpl.
    split; [assumption |]. split; [now rewrite length_alter |].
    intros _. rewrite Hnk.
    destruct k as [| k'].
    + subst wk. simpl. reflexivity.
    + rewrite Hfk by discriminate.
      rewrite Z.add_mod_idemp_l by lia. f_equal. lia.
Qed.

(** X2: when every label belongs to the handler's current state, the
    tabulator goes round: from the label at the focus index the focus goes
    to the next label, and from the last label to label 0. *)
Theorem passFocusToNextOnViewParameter_round (w : W) :
  0 < nslots w <= INT_MAX ->
  -1 <= onViewIndexWithFocus (ctrl w) < nslots w ->
  (forall k, 0 <= k < nslots w -> isOnViewParameterOfCurrentMode sp k w = true) ->
  let next := (onViewIndexWithFocus (ctrl w) + 1) mod nslots w in
  passFocusToNextOnViewParameter sp w
  = (tt, on_ctrl (set_onViewIndexWithFocus next) (on_label next setFocusToSpinbox w), []).
Proof. exact (passFocusToNextOnViewParameter_next w). Qed.

(** X3: with every label of the current state and the focus on a label, as
    many presses of the tabulator as there are labels bring the focus back
    to the label it was on; the handler and the number of labels stay. *)
Theorem tabShortcut_round_trip (w : W) :
  0 < nslots w <= INT_MAX ->
  0 <= onViewIndexWithFocus (ctrl w) < nslots w ->
  (forall i, 0 <= i < nslots w -> isOnViewParameterOfCurrentMode sp i w = true) ->
  let w' := Nat.iter (length (onViewParameters (ctrl w))) (exec (tabShortcut sp)) w in
  onViewIndexWithFocus (ctrl w') = onViewIndexWithFocus (ctrl w)
  /\ handler w' = handler w
  /\ nslots w' = nslots w.
Proof.
  intros Hn Hfocus Hall. cbv zeta.
  destruct (tabShortcut_iter w (length (onViewParameters (ctrl w))) Hn ltac:(lia) Hall)
    as (Hh & Hlen & Hf).
  split; [| split; [assumption | unfold nslots; now rewrite Hlen]].
  rewrite Hf by (unfold nslots in Hn; lia).
  fold (nslots w).
  rewrite <- (Z.mul_1_l (nslots w)) at 1.
  rewrite Z.mod_add by lia. apply Z.mod_small. lia.
Qed.

(** ** Initialisation and the first movement *)

Lemma initControls_run (widget : QWidget) (w : W) :
  initControls sp widget w
  = (tt,
     on_ctrl (set_init true) (exec (resetControls sp) (doInitControls sp widget w)),
     [DoInitControls; ConfigureOnViewParameters]).
Proof.
  unfold initControls, exec. unfold_M.
  rewrite (resetControls_run sp (doInitControls sp widget w)). reflexivity.
Qed.

Lemma resetControls_unsets (w : W) :
  firstMoveInit (ctrl (exec (resetControls sp) w)) = false.
Proof. unfold exec. rewrite resetControls_run. reflexivity. Qed.

(** X4: whatever the specialisation points do, [initControls] calls
    [doInitControls] first and [configureOnViewParameters] after it, and
    ends with [init] set and [firstMoveInit] unset; [resetControls] ends
    with [firstMoveInit] unset.  So the first [mouseMoved] after either of
    them runs [setModeOnViewParameters]. *)
Theorem initControls_arms_first_movement (widget : QWidget) (p : Vector2d) (w : W) :
  let w1 := exec (initControls sp widget) w in
  let w2 := exec (resetControls sp) w in
  trace (initControls sp widget) w = [DoInitControls; ConfigureOnViewParameters]
  /\ init (ctrl w1) = true
  /\ firstMoveInit (ctrl w1) = false
  /\ firstMoveInit (ctrl w2) = false
  /\ mouseMoved sp p w1
     = (tt, on_ctrl (set_firstMoveInit true) (exec (setModeOnViewParameters sp) w1), [])
  /\ mouseMoved sp p w2
     = (tt, on_ctrl (set_firstMoveInit true) (exec (setModeOnViewParameters sp) w2), []).
Proof.
  cbv zeta.
  assert (H1 : firstMoveInit (ctrl (exec (initControls sp widget) w)) = false).
  { unfold exec at 1. rewrite initControls_run. simpl. apply resetControls_unsets. }
  split; [unfold trace; now rewrite initControls_run |].
  split; [unfold exec at 1; now rewrite initControls_run |].
  split; [assumption |]. split; [apply resetControls_unsets |].
  split; apply mouseMoved_first; [assumption | apply resetControls_unsets].
Qed.

(** ** The focus index and the number of labels *)

Lemma focus_invariant_same (w w' : W) :
  same_but_labels_and_focus w w' ->
  focus_invariant w ->
  -1 <= onViewIndexWithFocus (ctrl w') ->
  onViewIndexWithFocus (ctrl w') < nslots w \/ onViewIndexWithFocus (ctrl w') = 0 ->
  focus_invariant w'.
Proof.
  unfold focus_invariant, same_but_labels_and_focus, nslots.
  intros (_ & _ & _ & _ & _ & Hn & _ & Hlen) (Hcount & Hmax & _ & _) Hlow Hhigh.
  rewrite Hn, Hlen. auto.
Qed.

Lemma focus_invariant_on_ctrl (f : DrawSketchController Label -> DrawSketchController Label)
    (w : W) :
  (forall c, nOnViewParameter (f c) = nOnViewParameter c
             /\ onViewParameters (f c) = onViewParameters c
             /\ onViewIndexWithFocus (f c) = onViewIndexWithFocus c) ->
  focus_invariant w -> focus_invariant (on_ctrl f w).
Proof.
  intros Hf. unfold focus_invariant, nslots, on_ctrl. simpl.
  destruct (Hf (ctrl w)) as (-> & -> & ->). auto.
Qed.

Lemma focus_invariant_setFocus (j : Z) (w : W) :
  0 <= j < nslots w ->
  focus_invariant w ->
  focus_invariant (on_ctrl (set_onViewIndexWithFocus j) (on_label j setFocusToSpinbox w)).
Proof.
  intros Hj Hinv.
  apply (focus_invariant_same w); [| assumption | simpl; lia | simpl; lia].
  eapply same_but_labels_and_focus_trans; [apply same_on_label | apply same_set_focus].
Qed.

Lemma focus_invariant_setModeOnViewParameters (w : W) :
  focus_invariant w -> focus_invariant (exec (setModeOnViewParameters sp) w).
Proof.
  intros Hinv.
  destruct (setModeOnViewParameters_run sp w) as (w' & Hrun & Hsame & _ & Hfocus);
    [apply Hinv |].
  unfold exec. rewrite Hrun. simpl.
  destruct (first_current _ _ 0) as [j |] eqn:Hfc; simpl in Hfocus.
  - apply first_current_Some in Hfc as (Hrange & _ & _).
    apply (focus_invariant_same w); [assumption | assumption | lia |].
    left. unfold nslots. lia.
  - apply (focus_invariant_same w); [assumption | assumption | lia |].
    left. unfold nslots. lia.
Qed.

Lemma focus_invariant_passFocus (w : W) :
  focus_invariant w -> focus_invariant (exec (passFocusToNextOnViewParameter sp) w).
Proof.
  intros Hinv.
  assert (Hcases := passFocusToNextOnViewParameter_cases w).
  cbv zeta in Hcases.
  destruct Hinv as (Hcount & Hmax & Hlow & Hhigh).
  assert (Hinv : focus_invariant w) by (unfold focus_invariant; auto).
  destruct Hcases as [(j & Hj & _ & _ & Hrun) | [_ Hrun]];
    [assumption | unfold INT_MAX in *; lia | |].
  - unfold exec. rewrite Hrun. simpl.
    apply focus_invariant_setFocus; [| assumption].
    destruct (nslots w <=? onViewIndexWithFocus (ctrl w) + 1); lia.
  - unfold exec. now rewrite Hrun.
Qed.

Lemma focus_invariant_resetControls (w : W) :
  (forall w0, focus_invariant w0 -> focus_invariant (configureOnViewParameters sp w0)) ->
  focus_invariant w -> focus_invariant (exec (resetControls sp) w).
Proof.
  intros Hconfigure (Hcount & _ & _ & _).
  unfold exec. rewrite resetControls_run. simpl.
  apply focus_invariant_on_ctrl; [intros c; repeat split |].
  apply Hconfigure.
  unfold focus_invariant, nslots. simpl. rewrite length_replicate.
  split; [assumption |]. split; [unfold INT_MAX in *; lia |].
  split; [lia | now right].
Qed.

Lemma focus_invariant_finishControlsChanged (w : W) :
  collaborators_in sp (fun w0 w1 => focus_invariant w0 -> focus_invariant w1) ->
  focus_invariant w -> focus_invariant (exec (finishControlsChanged sp) w).
Proof.
  intros Hcol Hinv. unfold exec. rewrite finishControlsChanged_run. simpl.
  assert (H3 : focus_invariant
                 (doChangeDrawSketchHandlerMode sp
                    (preselectAtPoint
                       (lastControlEnforcedPosition
                          (ctrl (mouseMove (prevCursorPosition (ctrl w)) w)))
                       (mouseMove (prevCursorPosition (ctrl w)) w)))).
  { apply (in_doChangeDrawSketchHandlerMode _ _ Hcol).
    apply (in_preselectAtPoint _ _ Hcol).
    now apply (in_mouseMove _ _ Hcol). }
  destruct (negb _ && negb _ && _); [| assumption].
  now apply (in_mouseMove _ _ Hcol).
Qed.

Lemma focus_invariant_onViewValueChanged (i : Z) (value : float) (w : W) :
  collaborators_in sp (fun w0 w1 => focus_invariant w0 -> focus_invariant w1) ->
  focus_invariant w -> focus_invariant (exec (onViewValueChanged sp i value) w).
Proof.
  intros Hcol Hinv. rewrite onViewValueChanged_exec.
  apply focus_invariant_finishControlsChanged; [assumption |].
  apply (in_adaptDrawingToOnViewParameterChange _ _ Hcol).
  destruct (isOnViewParameterOfCurrentMode sp (to_unsigned (to_int (i + 1))) w) eqn:Hcur;
    [| assumption].
  assert (Hlt : to_unsigned (to_int (i + 1)) < nslots w).
  { unfold isOnViewParameterOfCurrentMode in Hcur.
    apply andb_true_iff in Hcur as [Hlt _]. now apply Z.ltb_lt in Hlt. }
  assert (Hnext : 0 <= to_unsigned (to_int (i + 1))) by (apply Z.mod_pos_bound; lia).
  rewrite to_int_small
    by (destruct Hinv as (_ & Hmax & _); unfold INT_MAX in Hmax; lia).
  apply focus_invariant_setFocus; [lia | assumption].
Qed.

Lemma focus_invariant_enforceControlParameters (pos : Vector2d) (w : W) :
  (forall p w0, focus_invariant w0 ->
                focus_invariant (snd (doEnforceControlParameters sp p w0))) ->
  focus_invariant w -> focus_invariant (exec (enforceControlParameters sp pos) w).
Proof.
  intros Henforce Hinv.
  pose proof (enforceControlParameters_run sp pos w) as Hrun. cbv zeta in Hrun.
  unfold exec at 1. rewrite Hrun. cbn [fst snd].
  set (w3 := on_ctrl (set_lastControlEnforcedPosition _) _).
  assert (H3 : focus_invariant w3).
  { subst w3. apply focus_invariant_on_ctrl; [intros c; repeat split |].
    apply Henforce.
    apply focus_invariant_on_ctrl; [intros c; repeat split | assumption]. }
  unfold exec, afterEnforceControlParameters. unfold_M.
  destruct (Z.leb_spec 0 (onViewIndexWithFocus (ctrl w3))) as [Hpos | Hneg];
    [| assumption].
  destruct H3 as (Hcount & Hmax & Hlow & Hhigh).
  assert (H3 : focus_invariant w3) by (unfold focus_invariant; auto).
  destruct (index_conversions (onViewIndexWithFocus (ctrl w3))) as (Hi & Hu & _).
  { unfold INT_MAX in *. lia. }
  rewrite Hu.
  destruct (Z.lt_ge_cases (onViewIndexWithFocus (ctrl w3)) (nslots w3)) as [Hlt | Hge].
  - rewrite setFocus_in_range by assumption. cbn [fst snd]. rewrite Hi.
    apply focus_invariant_setFocus; [lia | assumption].
  - rewrite setFocus_out_of_range by assumption. assumption.
Qed.

(** X5: the focus index and the number of labels stay sound.  A new
    controller has no label and the focus index 0.  From then on, as long as
    the calls to the handler and to the specialisation points keep it so,
    every public member function ends with at most [INT_MAX] labels, made
    and to be made, and with a focus index that is [-1], the index of a
    label, or 0.  The sizes of the mode table are [int]s. *)
Theorem public_members_keep_focus_invariant :
  collaborators_in sp (fun w0 w1 => focus_invariant w0 -> focus_invariant w1) ->
  (forall p w0, focus_invariant w0 ->
                focus_invariant (snd (doEnforceControlParameters sp p w0))) ->
  (forall m n, ControlAmount.size OnViewParametersT m = Some n -> n <= INT_MAX) ->
  (forall (colors : ColorManager) (c : DrawSketchController Label) (h : HandlerT),
      newController OnViewParametersT colors = Some c -> focus_invariant (mkWorld c h))
  /\ (forall (m : OtherMember) (w w' : W),
         public_member m = true ->
         exec_member OnViewParametersT sp m w = Some w' ->
         focus_invariant w -> focus_invariant w')
  /\ (forall (pos : Vector2d) (w : W),
         focus_invariant w -> focus_invariant (exec (enforceControlParameters sp pos) w)).
Proof.
  intros Hcol Henforce Htable. split; [| split].
  - intros colors c h Hnew. unfold newController, ControlAmount.defaultMethodSize in Hnew.
    destruct (ControlAmount.size OnViewParametersT 0) as [n |] eqn:Hsize; [| discriminate].
    simpl in Hnew. injection Hnew as <-.
    unfold focus_invariant, nslots. simpl.
    split; [now apply (Htable 0) |]. split; [unfold INT_MAX; lia |].
    split; [lia | now right].
  - intros m w w' Hpublic Hm Hinv.
    destruct m; simpl in Hpublic; try discriminate; simpl in Hm.
    + injection Hm as <-. unfold exec at 1. rewrite initControls_run. simpl.
      apply focus_invariant_on_ctrl; [intros c; repeat split |].
      apply focus_invariant_resetControls;
        [apply (in_configureOnViewParameters _ _ Hcol) |].
      now apply (in_doInitControls _ _ Hcol).
    + injection Hm as <-.
      apply focus_invariant_resetControls;
        [apply (in_configureOnViewParameters _ _ Hcol) | assumption].
    + injection Hm as <-. unfold exec at 1.
      destruct (firstMoveInit (ctrl w)) eqn:Hmoved.
      * now rewrite mouseMoved_later.
      * rewrite mouseMoved_first by assumption. simpl.
        apply focus_invariant_on_ctrl; [intros c; repeat split |].
        now apply focus_invariant_setModeOnViewParameters.
    + unfold onConstructionMethodChanged in Hm.
      destruct (ControlAmount.size _ _) as [n |] eqn:Hsize; [| discriminate].
      simpl in Hm. injection Hm as <-.
      apply (in_mouseMove _ _ Hcol), (in_reset _ _ Hcol), (in_updateCursor _ _ Hcol),
        (in_doConstructionMethodChanged _ _ Hcol).
      destruct Hinv as (_ & Hmax & Hlow & Hhigh).
      unfold focus_invariant, nslots in *. simpl.
      split; [now apply (Htable _ _ Hsize) | auto].
    + injection Hm as <-. now apply focus_invariant_onViewValueChanged.
    + injection Hm as <-. unfold exec, adaptParameters. unfold_M. simpl.
      now apply (in_adaptParameters_at _ _ Hcol).
    + injection Hm as <-. now apply focus_invariant_setModeOnViewParameters.
    + injection Hm as <-. now apply focus_invariant_passFocus.
    + injection Hm as <-. unfold exec, afterHandlerModeChanged. unfold_M.
      destruct (negb _ || _); simpl; [now apply (in_mouseMove _ _ Hcol) | assumption].
    + injection Hm as <-. assumption.
    + injection Hm as <-. assumption.
    + injection Hm as <-. assumption.
  - intros pos w Hinv. now apply focus_invariant_enforceControlParameters.
Qed.

(** ** The construction method and the number of labels *)



(** ** The raw and the enforced position in use *)

Lemma positions_pair (w : W) (p q : Vector2d) :
  positions w = (p, q) ->
  prevCursorPosition (ctrl w) = p /\ lastControlEnforcedPosition (ctrl w) = q.
Proof. unfold positions. intros Hw. injection Hw as Hp Hq. split; assumption. Qed.

(** X9: which position is used where.  Take a specialisation point
    [doEnforceControlParameters] that leaves [prevCursorPosition] as it is,
    and calls to the handler and to the other specialisation points that
    leave both positions as they are.  After
    [enforceControlParameters] on a raw position, which hands an enforced
    position back to the handler, [adaptParameters] passes the enforced
    position on; a value entered in a label replays the handler's
    [mouseMove] at the raw position, preselects at the enforced position,
    and, when it replays a second time, replays at the raw position
    again. *)
Theorem raw_and_enforced_position_in_use
    (pos : Vector2d) (i : Z) (value : float) (w : W) :
  collaborators_in sp same_positions ->
  (forall q w0,
      prevCursorPosition (ctrl (snd (doEnforceControlParameters sp q w0)))
      = prevCursorPosition (ctrl w0)) ->
  let pos' := result (enforceControlParameters sp pos) w in
  let w1 := exec (enforceControlParameters sp pos) w in
  positions w1 = (pos, pos')
  /\ trace (adaptParameters sp) w1 = [AdaptParameters pos']
  /\ exists again : bool,
       trace (onViewValueChanged sp i value) w1
       = [AdaptDrawingToOnViewParameterChange i value;
          HandlerMouseMove pos;
          HandlerPreselectAtPoint pos';
          DoChangeDrawSketchHandlerMode]
         ++ (if again then [HandlerMouseMove pos] else []).
Proof.
  intros Hcol Hprev. cbv zeta.
  pose proof (enforceControlParameters_run sp pos w) as Hrun. cbv zeta in Hrun.
  assert (Hres : result (enforceControlParameters sp pos) w
                 = fst (doEnforceControlParameters sp pos
                          (on_ctrl (set_prevCursorPosition pos) w)))
    by (unfold result; rewrite Hrun; reflexivity).
  assert (Hexec : exec (enforceControlParameters sp pos) w
                  = exec afterEnforceControlParameters
                      (on_ctrl
                         (set_lastControlEnforcedPosition
                            (fst (doEnforceControlParameters sp pos
                                    (on_ctrl (set_prevCursorPosition pos) w))))
                         (snd (doEnforceControlParameters sp pos
                                 (on_ctrl (set_prevCursorPosition pos) w)))))
    by (unfold exec at 1; rewrite Hrun; reflexivity).
  rewrite Hres, Hexec. clear Hrun Hres Hexec.
  set (pos' := fst (doEnforceControlParameters sp pos _)) in *.
  set (w1 := exec afterEnforceControlParameters _).
  assert (H1 : positions w1 = (pos, pos')).
  { subst w1. rewrite afterEnforceControlParameters_positions.
    unfold positions. simpl. rewrite Hprev. reflexivity. }
  destruct (positions_pair _ _ _ H1) as (Hraw & Henf).
  split; [exact H1 |]. split.
  - unfold trace, adaptParameters. unfold_M. cbn [fst snd]. rewrite Henf. reflexivity.
  - rewrite onViewValueChanged_run.
    set (w0 := adaptDrawingToOnViewParameterChange sp i value _).
    assert (H0 : positions w0 = (pos, pos')).
    { subst w0. rewrite (in_adaptDrawingToOnViewParameterChange _ _ Hcol).
      destruct (isOnViewParameterOfCurrentMode sp _ w1); exact H1. }
    pose proof (finishControlsChanged_run sp w0) as Hfin. cbv zeta in Hfin.
    unfold trace. rewrite Hfin. cbn [fst snd].
    pose proof (in_mouseMove _ _ Hcol (prevCursorPosition (ctrl w0)) w0) as Hm.
    unfold same_positions in Hm. rewrite H0 in Hm.
    pose proof (in_preselectAtPoint _ _ Hcol
                  (lastControlEnforcedPosition (ctrl (mouseMove (prevCursorPosition (ctrl w0)) w0)))
                  (mouseMove (prevCursorPosition (ctrl w0)) w0)) as Hp.
    unfold same_positions in Hp. rewrite Hm in Hp.
    pose proof (in_doChangeDrawSketchHandlerMode _ _ Hcol
                  (preselectAtPoint
                     (lastControlEnforcedPosition
                        (ctrl (mouseMove (prevCursorPosition (ctrl w0)) w0)))
                     (mouseMove (prevCursorPosition (ctrl w0)) w0))) as Hd.
    unfold same_positions in Hd. rewrite Hp in Hd.
    rewrite (proj1 (positions_pair _ _ _ Hd)).
    rewrite (proj2 (positions_pair _ _ _ Hm)).
    rewrite (proj1 (positions_pair _ _ _ H0)).
    eexists. reflexivity.
Qed.

End Protocol.

(** * The class without a specialisation *)

Section Unspecialised.
Context {SelectModeT ConstructionMethodT Viewer Placement QWidget HandlerT Label : Type}.
Context `{!SelectModeEnum SelectModeT}
        `{!ConstructionMethodEnum ConstructionMethodT}
        `{!EditableDatumLabel Viewer Placement Label}
        `{!ControllableHandler SelectModeT ConstructionMethodT Viewer Placement
             HandlerT Label}.
Variable OnViewParametersT : ControlAmount.t.

Abbreviation W := (World HandlerT Label).

Lemma first_current_all_false (current : Z -> bool) (n : nat) (i : Z) :
  (forall k, i <= k < i + Z.of_nat n -> current k = false) ->
  first_current current n i = None.
Proof.
  intros Hnone. destruct (first_current current n i) as [j |] eqn:Hfc; [| reflexivity].
  apply first_current_Some in Hfc as (Hrange & Hcur & _).
  rewrite Hnone in Hcur by assumption. discriminate.
Qed.

Lemma isOnViewParameterOfCurrentMode_base (k : Z) (w : W) :
  isOnViewParameterOfCurrentMode
    (baseSpecialisation : Specialisation SelectModeT QWidget HandlerT Label) k w
  = (k <? nslots w) && bool_decide (getFirstState (handler w) = state (handler w)).
Proof. reflexivity. Qed.

(** X7: the class as it is written, with no specialisation.  After
    [resetControls] and the first [mouseMoved], with the handler in its
    first state, every label is a new label that has been activated, given
    two null points and put in edit with value zero, and the focus index is
    0 (or [-1] with no label).  With the handler in another state every
    label is a new label whose edit has been stopped, deactivated unless its
    [isSet] member is set and the state is not [End], and the focus index is
    [-1].  The handler is as it was. *)
Theorem first_movement_without_specialisation (p : Vector2d) (w : W) :
  0 <= nOnViewParameter (ctrl w) <= INT_MAX ->
  let base : Specialisation SelectModeT QWidget HandlerT Label := baseSpecialisation in
  let n := nOnViewParameter (ctrl w) in
  let fresh :=
    newLabel (getViewer (handler w)) (getPlacement (handler w))
      (dimConstrDeactivatedColor (colorManager (ctrl w))) true in
  let w2 := exec (mouseMoved base p) (exec (resetControls base) w) in
  handler w2 = handler w
  /\ firstMoveInit (ctrl w2) = true
  /\ (state (handler w) = getFirstState (handler w) ->
      onViewParameters (ctrl w2)
      = replicate (Z.to_nat n)
          (startEdit 0%float (setPoints Vector3d_zero Vector3d_zero (activate fresh)))
      /\ onViewIndexWithFocus (ctrl w2) = (if n =? 0 then -1 else 0))
  /\ (state (handler w) <> getFirstState (handler w) ->
      onViewParameters (ctrl w2)
      = replicate (Z.to_nat n)
          (if negb (isSet (stopEdit fresh)) || bool_decide (state (handler w) = End)
           then deactivate (stopEdit fresh)
           else stopEdit fresh)
      /\ onViewIndexWithFocus (ctrl w2) = -1).
Proof.
  intros Hn. cbv zeta.
  set (base := baseSpecialisation : Specialisation SelectModeT QWidget HandlerT Label).
  set (n := nOnViewParameter (ctrl w)) in *.
  set (fresh := newLabel _ _ _ true).
  set (w1 := exec (resetControls base) w).
  assert (Hw1 : onViewParameters (ctrl w1) = replicate (Z.to_nat n) fresh
                /\ handler w1 = handler w /\ firstMoveInit (ctrl w1) = false).
  { subst w1. unfold exec. rewrite resetControls_run. simpl. auto. }
  destruct Hw1 as (Hlabels1 & Hh1 & Hfirst1).
  assert (Hn1 : nslots w1 = n).
  { unfold nslots. rewrite Hlabels1, length_replicate. lia. }
  destruct (setModeOnViewParameters_run base w1) as (w' & Hrun & Hsame & Hlook & Hfocus);
    [lia |].
  assert (Hw2 : exec (mouseMoved base p) w1 = on_ctrl (set_firstMoveInit true) w').
  { unfold exec at 1. rewrite mouseMoved_first by assumption.
    unfold exec. rewrite Hrun. reflexivity. }
  rewrite Hw2. simpl.
  destruct Hsame as (Hh' & _ & _ & _ & _ & _ & _ & Hlen').
  assert (Hlabels : forall x : Label,
             (forall k : Z, 0 <= k < n ->
                setMode_label (isOnViewParameterOfCurrentMode base k w1)
                  (bool_decide (state (handler w1) = End)) fresh = x) ->
             onViewParameters (ctrl w') = replicate (Z.to_nat n) x).
  { intros x Hx. apply list_eq. intros k.
    destruct (decide (k < Z.to_nat n)%nat) as [Hk | Hk].
    - rewrite (Hlook k fresh) by (rewrite Hlabels1; apply lookup_replicate_2; lia).
      rewrite Hx by lia. symmetry. apply lookup_replicate_2. lia.
    - rewrite lookup_ge_None_2 by (rewrite Hlen', Hlabels1, length_replicate; lia).
      symmetry. apply lookup_ge_None_2. rewrite length_replicate. lia. }
  split; [congruence |]. split; [reflexivity |]. split.
  - intros Hstate. split.
    + apply Hlabels. intros k Hk. rewrite isOnViewParameterOfCurrentMode_base.
      destruct (Z.ltb_spec k (nslots w1)); [| lia].
      rewrite Hh1, bool_decide_eq_true_2 by congruence. reflexivity.
    + rewrite Hfocus. rewrite Hlabels1, length_replicate.
      destruct (Z.eqb_spec n 0) as [Hz | Hnz].
      * rewrite Hz. reflexivity.
      * rewrite (first_current_lowest _ _ 0 0); [reflexivity | lia | | intros k Hk; lia].
        rewrite isOnViewParameterOfCurrentMode_base.
        destruct (Z.ltb_spec 0 (nslots w1)); [| lia].
        rewrite Hh1, bool_decide_eq_true_2 by congruence. reflexivity.
  - intros Hstate.
    assert (Hnot : forall k, isOnViewParameterOfCurrentMode base k w1 = false).
    { intros k. rewrite isOnViewParameterOfCurrentMode_base.
      rewrite Hh1, bool_decide_eq_false_2 by congruence. apply andb_false_r. }
    split.
    + apply Hlabels. intros k Hk. rewrite Hnot, Hh1. reflexivity.
    + rewrite Hfocus, first_current_all_false; [reflexivity |].
      intros k _. apply Hnot.
Qed.

(** X8: a controller can be built when the mode table has a first size.  It
    starts with no label, the focus index 0, both flags unset and both
    positions null, and [initControls] on it (no specialisation) makes as
    many labels as the first size of the table says, none for a size below
    one, whatever the construction method of the handler. *)
Theorem new_controller_first_size
    (colors : ColorManager) (c : DrawSketchController Label) (h : HandlerT)
    (widget : QWidget) :
  newController OnViewParametersT colors = Some c ->
  let base : Specialisation SelectModeT QWidget HandlerT Label := baseSpecialisation in
  let w1 := exec (initControls base widget) (mkWorld c h) in
  exists n : Z,
    OnViewParametersT !! 0%nat = Some n
    /\ c = mkController false false Vector2d_zero Vector2d_zero 0 n [] colors
    /\ nslots w1 = Z.max 0 n
    /\ init (ctrl w1) = true
    /\ firstMoveInit (ctrl w1) = false
    /\ onViewIndexWithFocus (ctrl w1) = 0
    /\ handler w1 = h.
Proof.
  intros Hnew. cbv zeta.
  unfold newController, ControlAmount.defaultMethodSize, ControlAmount.size in Hnew.
  simpl in Hnew.
  change (Z.to_nat 0) with 0%nat in Hnew.
  destruct (OnViewParametersT !! 0%nat) as [n |] eqn:Hfirst; [| discriminate Hnew].
  simpl in Hnew. injection Hnew as Hc. subst c.
  exists n. split; [reflexivity |]. split; [reflexivity |].
  unfold exec. rewrite initControls_run. unfold exec. rewrite resetControls_run.
  unfold nslots. simpl. rewrite length_replicate. repeat split. lia.
Qed.

End Unspecialised.


(** * The properties on the tool *)

(** C9 at work: with no label at all, index 0 is ignored. *)
Lemma focus_operations_bounds_checked_witness :
  nslots (toolWorld MethodA 0 0 false SeekFirst None) <= 0
  /\ setFocusToOnViewParameter 0 (toolWorld MethodA 0 0 false SeekFirst None)
     = (tt, toolWorld MethodA 0 0 false SeekFirst None, [])
  /\ isOnViewParameterOfCurrentMode toolBase 0 (toolWorld MethodA 0 0 false SeekFirst None)
     = false.
Proof.
  assert (H : nslots (toolWorld MethodA 0 0 false SeekFirst None) <= 0)
    by (vm_compute; discriminate).
  split; [exact H |].
  exact (focus_operations_bounds_checked toolBase 0
           (toolWorld MethodA 0 0 false SeekFirst None) H).
Defined.

(** C1 as stated fails: two labels, both of the current state, the focus on
    label 0.  A value committed at label 0, which belongs to the current
    state, leaves the focus on label 1, not on label 0. *)
Lemma onViewValueChanged_focus_counterexample :
  isOnViewParameterOfCurrentMode toolBase 0 (toolWorld MethodA 2 0 true SeekFirst None)
  = true
  /\ onViewIndexWithFocus
       (ctrl (exec (onViewValueChanged toolBase 0 5)
                (toolWorld MethodA 2 0 true SeekFirst None))) = 1
  /\ onViewIndexWithFocus
       (ctrl (exec (onViewValueChanged toolBase 0 5)
                (toolWorld MethodA 2 0 true SeekFirst None))) <> 0.
Proof.
  split; [reflexivity |]. split; [reflexivity |]. vm_compute. discriminate.
Defined.

(** C1 (amended) at work on the same world. *)
Lemma onViewValueChanged_focus_next_witness :
  -1 <= 0 < INT_MAX
  /\ onViewValueChanged toolBase 0 5 (toolWorld MethodA 2 0 true SeekFirst None)
     = (call (AdaptDrawingToOnViewParameterChange 0 5)
             (adaptDrawingToOnViewParameterChange toolBase 0 5);;
        finishControlsChanged toolBase)
         (on_ctrl (set_onViewIndexWithFocus 1)
            (on_label 1 setFocusToSpinbox (toolWorld MethodA 2 0 true SeekFirst None))).
Proof.
  assert (H : -1 <= 0 < INT_MAX) by (unfold INT_MAX; lia).
  split; [exact H |].
  exact (proj1 (onViewValueChanged_focus_next toolBase 0 5
                  (toolWorld MethodA 2 0 true SeekFirst None) H)).
Defined.

(** C2 as stated fails: the handler's movement logic takes the tool from
    [SeekFirst] to [SeekSecond].  The state has changed between the start of
    the finish routine and the end of its third step, the new state is not
    the last one, and [firstMoveInit] is set; yet [mouseMove] is called
    once, because the state is compared with the one read after the first
    [mouseMove]. *)
Lemma second_replay_counterexample :
  state (handler (toolWorld MethodA 2 0 true SeekFirst (Some SeekSecond))) = SeekFirst
  /\ state (handler (exec (onViewValueChanged toolBase 0 5)
                       (toolWorld MethodA 2 0 true SeekFirst (Some SeekSecond))))
     = SeekSecond
  /\ isLastState (handler (exec (onViewValueChanged toolBase 0 5)
                             (toolWorld MethodA 2 0 true SeekFirst (Some SeekSecond))))
     = false
  /\ firstMoveInit (ctrl (exec (onViewValueChanged toolBase 0 5)
                            (toolWorld MethodA 2 0 true SeekFirst (Some SeekSecond))))
     = true
  /\ trace (onViewValueChanged toolBase 0 5)
       (toolWorld MethodA 2 0 true SeekFirst (Some SeekSecond))
     = [AdaptDrawingToOnViewParameterChange 0 5;
        HandlerMouseMove (mkVector2d 10 10);
        HandlerPreselectAtPoint (mkVector2d 10 10);
        DoChangeDrawSketchHandlerMode]
  /\ count_mouseMove
       (trace (onViewValueChanged toolBase 0 5)
          (toolWorld MethodA 2 0 true SeekFirst (Some SeekSecond))) = 1%nat.
Proof. repeat split. Defined.

(** The second call of [mouseMove]: the specialisation point moves the tool
    on to [SeekSecond] after the first call. *)
Example second_replay_example :
  trace (onViewValueChanged toolSpecialised 0 5)
    (toolWorld MethodA 2 0 true SeekFirst None)
  = [AdaptDrawingToOnViewParameterChange 0 5;
     HandlerMouseMove (mkVector2d 10 10);
     HandlerPreselectAtPoint (mkVector2d 10 10);
     DoChangeDrawSketchHandlerMode;
     HandlerMouseMove (mkVector2d 10 10)].
Proof. reflexivity. Qed.

(** Without a movement since the last reset there is no second call. *)
Example no_second_replay_before_first_move :
  count_mouseMove
    (trace (onViewValueChanged toolSpecialised 0 5)
       (toolWorld MethodA 2 0 false SeekFirst None)) = 1%nat.
Proof. reflexivity. Qed.

(** C3 at work: the tool has been switched to method B, of three
    parameters. *)
Lemma onConstructionMethodChanged_order_witness :
  ControlAmount.size ToolOnViewParameters
    (static_cast_int
       (constructionMethod (handler (toolWorld MethodB 2 0 true SeekSecond None))))
  = Some 3
  /\ onConstructionMethodChanged ToolOnViewParameters toolBase
       (toolWorld MethodB 2 0 true SeekSecond None)
     = Some (tt,
             on_ctrl (set_nOnViewParameter 3) (toolWorld MethodB 2 0 true SeekFirst None),
             [DoConstructionMethodChanged; HandlerUpdateCursor; HandlerReset;
              HandlerMouseMove (mkVector2d 10 10)]).
Proof.
  assert (H : ControlAmount.size ToolOnViewParameters
                (static_cast_int
                   (constructionMethod
                      (handler (toolWorld MethodB 2 0 true SeekSecond None))))
              = Some 3) by reflexivity.
  split; [exact H |].
  exact (proj2 (onConstructionMethodChanged_order ToolOnViewParameters toolBase
                  (toolWorld MethodB 2 0 true SeekSecond None) 3 H)).
Defined.

(** From method A to method B: two labels before, three after the reset that
    follows the change. *)
Example switch_to_method_B :
  forall r,
    onConstructionMethodChanged ToolOnViewParameters toolBase
      (toolWorld MethodB 2 0 true SeekSecond None) = Some r ->
    nslots (exec (resetControls toolBase) (snd (fst r))) = 3
    /\ isOnViewParameterOfCurrentMode toolBase 0
         (exec (resetControls toolBase) (snd (fst r))) = true.
Proof. intros r Hr. vm_compute in Hr. injection Hr as <-. split; reflexivity. Qed.

(** C4 at work: three labels, the first two of state [SeekFirst], the
    handler in [SeekFirst]. *)
Lemma setModeOnViewParameters_activation_witness :
  nslots (toolWorld MethodB 3 2 true SeekFirst None) <= INT_MAX
  /\ onViewIndexWithFocus
       (ctrl (exec (setModeOnViewParameters toolSpecialised)
                (toolWorld MethodB 3 2 true SeekFirst None))) = 0
  /\ map label_calls
       (onViewParameters
          (ctrl (exec (setModeOnViewParameters toolSpecialised)
                   (toolWorld MethodB 3 2 true SeekFirst None))))
     = [[Activate; SetPoints Vector3d_zero Vector3d_zero; StartEdit 0];
        [Activate; SetPoints Vector3d_zero Vector3d_zero; StartEdit 0];
        [StopEdit; Deactivate]].
Proof.
  assert (H : nslots (toolWorld MethodB 3 2 true SeekFirst None) <= INT_MAX)
    by (vm_compute; discriminate).
  split; [exact H |].
  destruct (setModeOnViewParameters_activation toolSpecialised
              (toolWorld MethodB 3 2 true SeekFirst None) H)
    as (_ & _ & _ & Hfocus & _).
  split; [| reflexivity].
  apply Hfocus.
  - vm_compute. split; [discriminate | reflexivity].
  - reflexivity.
  - intros j Hj. exfalso. apply (Z.lt_irrefl 0).
    apply Z.le_lt_trans with j; apply Hj.
Defined.

(** A label that holds a set value stays active when the tool moves on, and
    is deactivated once the tool is in state [End]. *)
Example set_label_kept_until_end :
  map label_calls
    (onViewParameters
       (ctrl (exec (setModeOnViewParameters toolSpecialised)
                (on_label 0 (set_isSet true) (toolWorld MethodB 3 0 true SeekSecond None)))))
  = [[StopEdit]; [StopEdit; Deactivate];
     [Activate; SetPoints Vector3d_zero Vector3d_zero; StartEdit 0]]
  /\ map label_calls
       (onViewParameters
          (ctrl (exec (setModeOnViewParameters toolSpecialised)
                   (on_label 0 (set_isSet true) (toolWorld MethodB 3 0 true ToolEnd None)))))
     = [[StopEdit; Deactivate]; [StopEdit; Deactivate]; [StopEdit; Deactivate]]
  /\ onViewIndexWithFocus
       (ctrl (exec (setModeOnViewParameters toolSpecialised)
                (on_label 0 (set_isSet true) (toolWorld MethodB 3 0 true ToolEnd None))))
     = -1.
Proof. repeat split. Qed.

(** C5, the scenario: three labels, all of the current state, the focus on
    label 1; the focus goes to label 2, and from there to label 0. *)
Example passFocus_scenario :
  onViewIndexWithFocus
    (ctrl (exec (passFocusToNextOnViewParameter toolBase)
             (toolWorld MethodB 3 1 true SeekFirst None))) = 2
  /\ onViewIndexWithFocus
       (ctrl (exec (passFocusToNextOnViewParameter toolBase)
                (exec (passFocusToNextOnViewParameter toolBase)
                   (toolWorld MethodB 3 1 true SeekFirst None)))) = 0.
Proof. split; reflexivity. Qed.

(** C5, where the code goes wrong: three labels, labels 0 and 1 of state
    [SeekFirst] and label 2 of state [SeekSecond], the handler in
    [SeekFirst], the focus on label 1.  The next label of the current state,
    going round, is label 0; [passFocusToNextOnViewParameter] looks at label
    2 only and leaves the focus on label 1. *)
Lemma passFocus_does_not_wrap :
  isOnViewParameterOfCurrentMode toolSpecialised 0
    (toolWorld MethodB 3 1 true SeekFirst None) = true
  /\ isOnViewParameterOfCurrentMode toolSpecialised 2
       (toolWorld MethodB 3 1 true SeekFirst None) = false
  /\ passFocusToNextOnViewParameter toolSpecialised
       (toolWorld MethodB 3 1 true SeekFirst None)
     = (tt, toolWorld MethodB 3 1 true SeekFirst None, [])
  /\ onViewIndexWithFocus
       (ctrl (exec (passFocusToNextOnViewParameter toolSpecialised)
                (toolWorld MethodB 3 1 true SeekFirst None))) = 1.
Proof. repeat split. Qed.

(** C6 at work: method B, of three parameters; two labels in use before. *)
Lemma resetControls_rebuilds_witness :
  ControlAmount.size ToolOnViewParameters (static_cast_int MethodB) = Some 3
  /\ 0 <= 3
  /\ nOnViewParameter
       (ctrl (on_ctrl (set_nOnViewParameter 3)
                (on_label 0 (setColor orange) (toolWorld MethodB 2 1 true SeekSecond None))))
     = 3
  /\ (forall w0, configureOnViewParameters toolBase w0 = w0)
  /\ onViewParameters
       (ctrl (exec (resetControls toolBase)
                (on_ctrl (set_nOnViewParameter 3)
                   (on_label 0 (setColor orange)
                      (toolWorld MethodB 2 1 true SeekSecond None)))))
     = [freshLabel; freshLabel; freshLabel].
Proof.
  assert (H1 : ControlAmount.size ToolOnViewParameters (static_cast_int MethodB) = Some 3)
    by reflexivity.
  assert (H2 : 0 <= 3) by (vm_compute; discriminate).
  assert (H3 : forall w0 : World ToolHandler ToolLabel,
             configureOnViewParameters toolBase w0 = w0) by reflexivity.
  split; [exact H1 |]. split; [exact H2 |]. split; [reflexivity |]. split; [exact H3 |].
  exact (proj1 (resetControls_rebuilds ToolOnViewParameters toolBase MethodB 3
                  (on_ctrl (set_nOnViewParameter 3)
                     (on_label 0 (setColor orange)
                        (toolWorld MethodB 2 1 true SeekSecond None)))
                  H1 H2 eq_refl H3)).
Defined.

(** C7 at work: the calls of the tool's handler and the empty specialisation
    points leave the positions alone, and so does a committed value. *)
Lemma positions_written_by_enforce_only_witness :
  collaborators_in toolBase same_positions
  /\ positions (exec (onViewValueChanged toolBase 0 5)
                  (toolWorld MethodA 2 0 true SeekFirst (Some SeekSecond)))
     = positions (toolWorld MethodA 2 0 true SeekFirst (Some SeekSecond))
  /\ lastControlEnforcedPosition
       (ctrl (exec (enforceControlParameters toolSpecialised (mkVector2d 7 7))
                (toolWorld MethodA 2 0 true SeekFirst None)))
     = mkVector2d 5 7.
Proof.
  assert (H : collaborators_in toolBase same_positions).
  { constructor; intros; try reflexivity.
    unfold same_positions, positions. simpl.
    destruct (tool_moveTo (handler w)); reflexivity. }
  split; [exact H |]. split.
  - apply (proj1 (proj2 (proj2
             (positions_written_by_enforce_only ToolOnViewParameters toolBase))) H
             (OnViewValueChanged 0 5)).
    reflexivity.
  - apply (proj1 (positions_written_by_enforce_only ToolOnViewParameters toolSpecialised)
             (mkVector2d 7 7) (toolWorld MethodA 2 0 true SeekFirst None)).
Defined.

(** The enforced position wins over the raw one: the raw position is kept in
    [prevCursorPosition], the enforced one in [lastControlEnforcedPosition],
    and the focused label gets the keyboard focus back. *)
Example enforceControlParameters_example :
  positions (exec (enforceControlParameters toolSpecialised (mkVector2d 7 7))
               (toolWorld MethodA 2 0 true SeekFirst None))
  = (mkVector2d 7 7, mkVector2d 5 7)
  /\ map label_calls
       (onViewParameters
          (ctrl (exec (enforceControlParameters toolSpecialised (mkVector2d 7 7))
                   (toolWorld MethodA 2 0 true SeekFirst None))))
     = [[SetFocusToSpinbox]; []].
Proof. split; reflexivity. Qed.

(** C8 at work: three movements after a reset. *)
Lemma mouseMoved_first_movement_once_witness :
  firstMoveInit (ctrl (toolWorld MethodA 2 0 false SeekFirst None)) = false
  /\ result (mouseMoved_calls toolBase [mkVector2d 1 1; mkVector2d 2 2; mkVector2d 3 3])
       (toolWorld MethodA 2 0 false SeekFirst None)
     = [true; false; false].
Proof.
  assert (H2 : firstMoveInit (ctrl (toolWorld MethodA 2 0 false SeekFirst None)) = false)
    by reflexivity.
  split; [exact H2 |].
  destruct (mouseMoved_first_movement_once toolBase (mkVector2d 1 1)
              [mkVector2d 2 2; mkVector2d 3 3]
              (toolWorld MethodA 2 0 false SeekFirst None) H2)
    as (_ & _ & _ & Hcalls & _).
  unfold result. rewrite Hcalls. reflexivity.
Defined.

(** C10 at work: in state [End] with continuous mode off nothing happens;
    in another state the position is replayed. *)
Lemma afterHandlerModeChanged_replay_witness :
  afterHandlerModeChanged (toolWorld MethodA 2 0 true ToolEnd None)
  = (tt, toolWorld MethodA 2 0 true ToolEnd None, [])
  /\ trace afterHandlerModeChanged (toolWorld MethodA 2 0 true SeekSecond None)
     = [HandlerMouseMove (mkVector2d 10 10)].
Proof.
  split.
  - apply (proj1 (proj2 (afterHandlerModeChanged_replay
                           (toolWorld MethodA 2 0 true ToolEnd None)))).
    split; reflexivity.
  - unfold trace.
    rewrite (proj1 (afterHandlerModeChanged_replay
                      (toolWorld MethodA 2 0 true SeekSecond None)));
      [reflexivity | left; reflexivity].
Defined.

(** ** The further properties on the tool *)

(** The calls to the tool's handler and the empty specialisation points
    leave the controller as it is. *)
Lemma toolBase_keeps_controller
    (R : World ToolHandler ToolLabel -> World ToolHandler ToolLabel -> Prop) :
  (forall w w', ctrl w' = ctrl w -> R w w') ->
  collaborators_in toolBase R.
Proof.
  intros HR. constructor; intros; apply HR; try reflexivity.
  simpl. destruct (tool_moveTo (handler w)); reflexivity.
Qed.

Lemma tool_focus_invariant_ctrl (w w' : World ToolHandler ToolLabel) :
  ctrl w' = ctrl w -> focus_invariant w -> focus_invariant w'.
Proof.
  unfold focus_invariant, nslots. intros ->. exact (fun H => H).
Qed.

Lemma tool_all_current (n : nat) (focus : Z) (moved : bool) (method : ToolMethod) (k : Z) :
  0 <= k < nslots (toolWorld method n focus moved SeekFirst None) ->
  isOnViewParameterOfCurrentMode toolBase k (toolWorld method n focus moved SeekFirst None)
  = true.
Proof.
  intros Hk. unfold isOnViewParameterOfCurrentMode.
  destruct (Z.ltb_spec k (nslots (toolWorld method n focus moved SeekFirst None)));
    [reflexivity | lia].
Qed.

(** X1 at work: three labels, the first two of state [SeekFirst], the
    handler in [SeekFirst].  From label 0 the focus goes to label 1. *)
Lemma passFocusToNextOnViewParameter_target_witness :
  nslots (toolWorld MethodB 3 0 true SeekFirst None) <= INT_MAX
  /\ -1 <= onViewIndexWithFocus (ctrl (toolWorld MethodB 3 0 true SeekFirst None)) < INT_MAX
  /\ passFocusToNextOnViewParameter toolSpecialised (toolWorld MethodB 3 0 true SeekFirst None)
     = (tt,
        on_ctrl (set_onViewIndexWithFocus 1)
          (on_label 1 setFocusToSpinbox (toolWorld MethodB 3 0 true SeekFirst None)),
        []).
Proof.
  assert (H1 : nslots (toolWorld MethodB 3 0 true SeekFirst None) <= INT_MAX)
    by (vm_compute; discriminate).
  assert (H2 : -1 <= onViewIndexWithFocus (ctrl (toolWorld MethodB 3 0 true SeekFirst None))
               < INT_MAX)
    by (vm_compute; split; [discriminate | reflexivity]).
  split; [exact H1 |]. split; [exact H2 |].
  destruct (passFocusToNextOnViewParameter_target toolSpecialised
              (toolWorld MethodB 3 0 true SeekFirst None) H1 H2)
    as [(j & Hj & _ & Hlow & Hrun) | (Hnone & _)].
  - change (1 <= j < 3) in Hj.
    assert (Hj1 : j = 1).
    { destruct (Z.eq_dec j 1) as [| Hne]; [assumption |].
      assert (Habs : isOnViewParameterOfCurrentMode toolSpecialised 1
                       (toolWorld MethodB 3 0 true SeekFirst None) = false).
      { apply Hlow. change (1 <= 1 < j). lia. }
      discriminate Habs. }
    rewrite Hrun, Hj1. reflexivity.
  - assert (Habs : isOnViewParameterOfCurrentMode toolSpecialised 1
                     (toolWorld MethodB 3 0 true SeekFirst None) = false).
    { apply Hnone. change (1 <= 1 < 3). lia. }
    discriminate Habs.
Defined.

(** X2 at work: two labels, the focus on the last: the tabulator takes it
    to label 0. *)
Lemma passFocusToNextOnViewParameter_round_witness :
  0 < nslots (toolWorld MethodA 2 1 true SeekFirst None) <= INT_MAX
  /\ -1 <= onViewIndexWithFocus (ctrl (toolWorld MethodA 2 1 true SeekFirst None))
     < nslots (toolWorld MethodA 2 1 true SeekFirst None)
  /\ onViewIndexWithFocus
       (ctrl (exec (passFocusToNextOnViewParameter toolBase)
                (toolWorld MethodA 2 1 true SeekFirst None))) = 0.
Proof.
  assert (H1 : 0 < nslots (toolWorld MethodA 2 1 true SeekFirst None) <= INT_MAX)
    by (vm_compute; split; [reflexivity | discriminate]).
  assert (H2 : -1 <= onViewIndexWithFocus (ctrl (toolWorld MethodA 2 1 true SeekFirst None))
               < nslots (toolWorld MethodA 2 1 true SeekFirst None))
    by (vm_compute; split; [discriminate | reflexivity]).
  split; [exact H1 |]. split; [exact H2 |].
  unfold exec.
  rewrite (passFocusToNextOnViewParameter_round toolBase
             (toolWorld MethodA 2 1 true SeekFirst None) H1 H2
             (tool_all_current 2 1 true MethodA)).
  reflexivity.
Defined.

(** X3 at work: three labels, the focus on label 1: three presses of the
    tabulator bring it back to label 1. *)
Lemma tabShortcut_round_trip_witness :
  0 < nslots (toolWorld MethodB 3 1 true SeekFirst None) <= INT_MAX
  /\ 0 <= onViewIndexWithFocus (ctrl (toolWorld MethodB 3 1 true SeekFirst None))
     < nslots (toolWorld MethodB 3 1 true SeekFirst None)
  /\ onViewIndexWithFocus
       (ctrl (Nat.iter 3 (exec (tabShortcut toolBase))
                (toolWorld MethodB 3 1 true SeekFirst None))) = 1.
Proof.
  assert (H1 : 0 < nslots (toolWorld MethodB 3 1 true SeekFirst None) <= INT_MAX)
    by (vm_compute; split; [reflexivity | discriminate]).
  assert (H2 : 0 <= onViewIndexWithFocus (ctrl (toolWorld MethodB 3 1 true SeekFirst None))
               < nslots (toolWorld MethodB 3 1 true SeekFirst None))
    by (vm_compute; split; [discriminate | reflexivity]).
  split; [exact H1 |]. split; [exact H2 |].
  exact (proj1 (tabShortcut_round_trip toolBase
                  (toolWorld MethodB 3 1 true SeekFirst None) H1 H2
                  (tool_all_current 3 1 true MethodB))).
Defined.

(** X5 at work: the tool's handler and the empty specialisation points keep
    the controller, the mode table holds 2 and 3; so a value entered in
    label 0 leaves a sound focus index. *)
Lemma public_members_keep_focus_invariant_witness :
  focus_invariant (toolWorld MethodA 2 0 true SeekFirst None)
  /\ exists w' : World ToolHandler ToolLabel,
       exec_member ToolOnViewParameters toolBase (OnViewValueChanged 0 5)
         (toolWorld MethodA 2 0 true SeekFirst None) = Some w'
       /\ focus_invariant w'.
Proof.
  assert (H0 : focus_invariant (toolWorld MethodA 2 0 true SeekFirst None)).
  { unfold focus_invariant.
    change (nOnViewParameter (ctrl (toolWorld MethodA 2 0 true SeekFirst None))) with 2.
    change (nslots (toolWorld MethodA 2 0 true SeekFirst None)) with 2.
    change (onViewIndexWithFocus (ctrl (toolWorld MethodA 2 0 true SeekFirst None))) with 0.
    unfold INT_MAX. lia. }
  assert (Hcol : collaborators_in toolBase
                   (fun w0 w1 => focus_invariant w0 -> focus_invariant w1)).
  { apply toolBase_keeps_controller. intros w w'. apply tool_focus_invariant_ctrl. }
  assert (Henf : forall (p : Vector2d) (w0 : World ToolHandler ToolLabel),
             focus_invariant w0 ->
             focus_invariant (snd (doEnforceControlParameters toolBase p w0))).
  { intros p w0 Hw0. exact Hw0. }
  assert (Htable : forall m n : Z,
             ControlAmount.size ToolOnViewParameters m = Some n -> n <= INT_MAX).
  { intros m n. unfold ControlAmount.size, ToolOnViewParameters.
    destruct (m <? 0); [discriminate |].
    destruct (Z.to_nat m) as [| [| k]]; simpl; intros Hn;
      try discriminate Hn; injection Hn as <-; unfold INT_MAX; lia. }
  split; [exact H0 |].
  eexists. split; [reflexivity |].
  apply (proj1 (proj2 (public_members_keep_focus_invariant ToolOnViewParameters toolBase
                         Hcol Henf Htable))
           (OnViewValueChanged 0 5) (toolWorld MethodA 2 0 true SeekFirst None));
    [reflexivity | reflexivity | exact H0].
Defined.


(** X7 at work: the tool without a specialisation, in its first state: after
    a reset and a first movement both labels are in edit and the focus index
    is 0. *)
Lemma first_movement_without_specialisation_witness :
  0 <= nOnViewParameter (ctrl (toolWorld MethodA 2 1 true SeekFirst None)) <= INT_MAX
  /\ map label_calls
       (onViewParameters
          (ctrl (exec (mouseMoved toolBase (mkVector2d 1 1))
                   (exec (resetControls toolBase)
                      (toolWorld MethodA 2 1 true SeekFirst None)))))
     = [[Activate; SetPoints Vector3d_zero Vector3d_zero; StartEdit 0];
        [Activate; SetPoints Vector3d_zero Vector3d_zero; StartEdit 0]]
  /\ onViewIndexWithFocus
       (ctrl (exec (mouseMoved toolBase (mkVector2d 1 1))
                (exec (resetControls toolBase)
                   (toolWorld MethodA 2 1 true SeekFirst None)))) = 0.
Proof.
  assert (Hn : 0 <= nOnViewParameter (ctrl (toolWorld MethodA 2 1 true SeekFirst None))
               <= INT_MAX)
    by (vm_compute; split; discriminate).
  split; [exact Hn |].
  destruct (first_movement_without_specialisation (QWidget := unit) (mkVector2d 1 1)
              (toolWorld MethodA 2 1 true SeekFirst None) Hn)
    as (_ & _ & Hfirst & _).
  destruct (Hfirst eq_refl) as (Hlabels & Hfocus).
  split.
  - unfold toolBase. rewrite Hlabels. reflexivity.
  - unfold toolBase. rewrite Hfocus. reflexivity.
Defined.

(** X8 at work: a controller for the tool's mode table starts with two
    labels to be made, also for a handler on method B, of size 3. *)
Lemma new_controller_first_size_witness :
  newController (Label := ToolLabel) ToolOnViewParameters toolColors
  = Some (mkController false false Vector2d_zero Vector2d_zero 0 2 [] toolColors)
  /\ nslots
       (exec (initControls toolBase tt)
          (mkWorld (mkController false false Vector2d_zero Vector2d_zero 0 2 [] toolColors)
             (mkToolHandler SeekFirst MethodB false None))) = 2.
Proof.
  assert (Hnew : newController (Label := ToolLabel) ToolOnViewParameters toolColors
                 = Some (mkController false false Vector2d_zero Vector2d_zero 0 2 []
                           toolColors)) by reflexivity.
  split; [exact Hnew |].
  destruct (new_controller_first_size ToolOnViewParameters toolColors _
              (mkToolHandler SeekFirst MethodB false None) tt Hnew)
    as (n & Hfirst & _ & Hmade & _).
  injection Hfirst as <-.
  unfold toolBase. rewrite Hmade. reflexivity.
Defined.

(** X9 at work: the specialised tool, enforced at (5, 7) for the raw
    position (7, 7); a value entered in label 0 moves the tool on, so the
    handler's [mouseMove] is replayed twice, both times at (7, 7). *)
Lemma raw_and_enforced_position_in_use_witness :
  collaborators_in toolSpecialised same_positions
  /\ trace (adaptParameters toolSpecialised)
       (exec (enforceControlParameters toolSpecialised (mkVector2d 7 7))
          (toolWorld MethodA 2 0 true SeekFirst None))
     = [AdaptParameters (mkVector2d 5 7)]
  /\ exists again : bool,
       trace (onViewValueChanged toolSpecialised 0 5)
         (exec (enforceControlParameters toolSpecialised (mkVector2d 7 7))
            (toolWorld MethodA 2 0 true SeekFirst None))
       = [AdaptDrawingToOnViewParameterChange 0 5;
          HandlerMouseMove (mkVector2d 7 7);
          HandlerPreselectAtPoint (mkVector2d 5 7);
          DoChangeDrawSketchHandlerMode]
         ++ (if again then [HandlerMouseMove (mkVector2d 7 7)] else []).
Proof.
  assert (Hcol : collaborators_in toolSpecialised same_positions).
  { constructor; intros; try reflexivity.
    unfold same_positions, positions. simpl.
    destruct (tool_moveTo (handler w)); reflexivity. }
  split; [exact Hcol |].
  exact (proj2 (raw_and_enforced_position_in_use toolSpecialised (mkVector2d 7 7) 0 5
                  (toolWorld MethodA 2 0 true SeekFirst None) Hcol
                  (fun q w0 => eq_refl))).
Defined.
